(** * The answer orchestrator of orc/code_orchestration.py

    A shallow embedding of [get_answer]: the retrieval-augmented round
    (first completion, optional function round, second completion), the
    broad handler around it, the groundedness check and the assembly of the
    returned dictionary.

    Python values that cross the protocol boundary (messages, completion
    responses, parsed function arguments) are JSON values; the local
    variables of [get_answer] are a record threaded through a state and
    exception monad; every call to an external collaborator is recorded in
    a call log, so that what was requested, and in which order, can be
    stated.

    The initialisation of lines 82-97 (kernel, plugins, function
    definitions) and the read of the prompt file are taken as done, and
    their values are part of the collaborators; the calls of [logging] have
    no effect on the locals and are left out. *)

From Stdlib Require Import ZArith String Ascii List Bool Lia.
From stdpp Require Import base option list gmap strings.

Local Open Scope Z_scope.
Local Open Scope string_scope.
Local Open Scope list_scope.

(** ** Values *)

(** What [json.loads] / [requests.Response.json] can produce, and what the
    message dictionaries are made of.  Of the numbers only the integers
    are represented, which is what the completion service sends as usage
    counters; a response with a fractional number is not covered, and
    nothing below is stated about the type of a counter.  A [JDict] binds
    each key to its first entry; the entries keep the insertion order, as
    Python's dictionaries do. *)
#[warnings="-register-all"]
Inductive json : Type :=
| JNull
| JBool (b : bool)
| JInt (n : Z)
| JStr (s : string)
| JList (items : list json)
| JDict (fields : list (string * json)).

(** ** Exceptions *)

(** The subclasses of [Exception] that the modelled operations raise
    themselves, and [Fault] for whatever a collaborator raises ([text] is
    what [str(e)] gives for it). *)
Inductive exn : Type :=
| KeyError (key : json)
| IndexError
| TypeError
| ValueError
| Fault (text : string).

Inductive result (A : Type) : Type :=
| Ok (a : A)
| Raise (e : exn).
Arguments Ok {A} a.
Arguments Raise {A} e.

(** Evaluation in sequence: the first exception ends it. *)
Definition and_then {A B : Type} (r : result A) (k : A -> result B) : result B :=
  match r with
  | Ok a => k a
  | Raise e => Raise e
  end.

(** ** Python's operations on these values *)

Module Py.

Fixpoint dict_get (k : string) (d : list (string * json)) : option json :=
  match d with
  | [] => None
  | (k', v) :: d' => if String.eqb k' k then Some v else dict_get k d'
  end.

(** [v[k]] for a string key [k]. *)
Definition getitem (v : json) (k : string) : result json :=
  match v with
  | JDict d => match dict_get k d with
               | Some x => Ok x
               | None => Raise (KeyError (JStr k))
               end
  | _ => Raise TypeError
  end.

(** [v[0]]. *)
Definition getitem0 (v : json) : result json :=
  match v with
  | JList (x :: _) => Ok x
  | JList [] => Raise IndexError
  | JStr (String c _) => Ok (JStr (String c EmptyString))
  | JStr EmptyString => Raise IndexError
  | JDict _ => Raise (KeyError (JInt 0))
  | _ => Raise TypeError
  end.

(** [l[-k]] on a list, for [k >= 1]. *)
Definition from_end {A : Type} (l : list A) (k : nat) : result A :=
  if (k <=? length l)%nat
  then match nth_error l (length l - k) with
       | Some x => Ok x
       | None => Raise IndexError
       end
  else Raise IndexError.

(** [v == s] for a string literal [s]. *)
Definition eq_str (v : json) (s : string) : bool :=
  match v with
  | JStr s' => String.eqb s' s
  | _ => false
  end.

Fixpoint contains (needle hay : string) : bool :=
  if String.prefix needle hay then true
  else match hay with
       | EmptyString => false
       | String _ hay' => contains needle hay'
       end.

(** [k in v] for a string literal [k]: key test on a dictionary, element
    test on a list, substring test on a string. *)
Definition is_in (k : string) (v : json) : result bool :=
  match v with
  | JDict d => Ok (match dict_get k d with Some _ => true | None => false end)
  | JList l => Ok (existsb (fun x => eq_str x k) l)
  | JStr s => Ok (contains k s)
  | _ => Raise TypeError
  end.

(** [n + v] for an integer [n], as [n += v] computes it: [bool] is a
    subclass of [int]. *)
Definition add (n : Z) (v : json) : result Z :=
  match v with
  | JInt z => Ok (n + z)
  | JBool b => Ok (n + (if b then 1 else 0))
  | _ => Raise TypeError
  end.

(** *** [str.isdigit] and [int] on texts of code points below 256

    For [get_answer] the interpreter's [str.isdigit] and [int] are
    collaborators, given on every text (see [Env]).  What follows is what
    the two do on the texts whose characters are code points below 256,
    which are the texts of the concrete turns.  There [isdigit] accepts
    the ten decimal digits and the superscripts two, three and one (code
    points 178, 179 and 185), and wants at least one character. *)

Definition is_decimal (c : ascii) : bool :=
  let n := nat_of_ascii c in ((48 <=? n) && (n <=? 57))%nat.

Definition is_digit_char (c : ascii) : bool :=
  let n := nat_of_ascii c in
  is_decimal c || (n =? 178)%nat || (n =? 179)%nat || (n =? 185)%nat.

Fixpoint all_chars (p : ascii -> bool) (s : string) : bool :=
  match s with
  | EmptyString => true
  | String c s' => p c && all_chars p s'
  end.

Definition isdigit (s : string) : bool :=
  match s with
  | EmptyString => false
  | _ => all_chars is_digit_char s
  end.

Definition digit_value (c : ascii) : Z := Z.of_nat (nat_of_ascii c) - 48.

(** White space as [int] strips it: tab to carriage return, the blank,
    and the two white-space characters between 128 and 255. *)
Definition is_space (c : ascii) : bool :=
  let n := nat_of_ascii c in
  (((9 <=? n) && (n <=? 13)) || (n =? 32) || (n =? 133) || (n =? 160))%nat.

Fixpoint lstrip (s : string) : string :=
  match s with
  | String c s' => if is_space c then lstrip s' else s
  | EmptyString => EmptyString
  end.

Fixpoint rstrip (s : string) : string :=
  match s with
  | EmptyString => EmptyString
  | String c s' =>
      match rstrip s' with
      | EmptyString => if is_space c then EmptyString else String c EmptyString
      | t => String c t
      end
  end.

(** Digits with single underscores between them; [after_digit] tells
    whether the previous character was a digit. *)
Fixpoint digits (acc : Z) (after_digit : bool) (s : string) : option Z :=
  match s with
  | EmptyString => if after_digit then Some acc else None
  | String c s' =>
      if is_decimal c then digits (10 * acc + digit_value c) true s'
      else if (nat_of_ascii c =? 95)%nat && after_digit then digits acc false s'
      else None
  end.

Fixpoint count_decimal (s : string) : nat :=
  match s with
  | EmptyString => O
  | String c s' => if is_decimal c then S (count_decimal s') else count_decimal s'
  end.

(** [sys.int_max_str_digits], at its default. *)
Definition int_max_str_digits : nat := 4300.

(** [int(s)] in base ten: optional white space, an optional sign, digits,
    no more of them than [int_max_str_digits]. *)
Definition int (s : string) : result Z :=
  let body := rstrip (lstrip s) in
  let signed :=
    match body with
    | String c t =>
        if (nat_of_ascii c =? 45)%nat then Z.opp <$> digits 0 false t
        else if (nat_of_ascii c =? 43)%nat then digits 0 false t
        else digits 0 false body
    | EmptyString => None
    end in
  match signed with
  | Some z =>
      if (int_max_str_digits <? count_decimal body)%nat then Raise ValueError
      else Ok z
  | None => Raise ValueError
  end.

End Py.

(** ** The collaborators of [get_answer]

    Everything [get_answer] reaches outside its own body.  The two
    services decorated with [@retry(..., reraise=True)] are given by the
    outcome of the decorated call: the value of the attempt that succeeded,
    or the exception that is raised again once the attempts are used up. *)
Record Env : Type := {
  (** [shared.util.get_message] *)
  get_message : string -> string;
  (** [shared.util.get_chat_history_as_messages(history, include_last_turn=True)] *)
  get_chat_history_as_messages : list json -> list json;
  (** the contents of [FUNCTIONS_CONFIGURATION], parsed *)
  functions_definitions : json;
  (** the contents of [QUESTION_ANSWERING_PROMPT_FILE] *)
  prompt_file : string;
  (** [json.loads] on a text *)
  json_loads : string -> result json;
  (** [str(e)] for the exceptions the interpreter raises itself *)
  builtin_text : exn -> string;
  (** [s.isdigit()] for a text [s] *)
  str_isdigit : string -> bool;
  (** [int(s)] for a text [s] *)
  int_of_str : string -> result Z;
  (** [chat_complete(messages, functions, function_call)] *)
  chat_complete : list json -> json -> string -> result json;
  (** [rag_plugin["Retrieval"]] applied to the context variables updated
      with the parsed arguments; the value is the [.result] of its answer *)
  Retrieval : json -> result string;
  (** [call_semantic_function(rag_plugin["groudedness"], context)] for a
      fresh context holding [answer] and [sources]; the value is the
      [.result] of its answer *)
  groudedness : json -> json -> result string
}.

(** [f"{e}"] *)
Definition str_exn (env : Env) (e : exn) : string :=
  match e with
  | Fault text => text
  | _ => builtin_text env e
  end.

(** ** The call log *)

Inductive event : Type :=
| ChatComplete (messages : list json) (function_call : string) (out : result json)
| Invoke (name : json) (args : json) (out : result string)
| Grounded (answer sources : json) (out : result string).

(** ** The local variables of [get_answer] *)

Record locals : Type := Locals {
  messages : list json;
  answer : json;
  prompt_tokens : Z;
  completion_tokens : Z;
  answer_dict : gmap string json;
  rag_processing_error : bool;
  calls : list event
}.

Definition set_messages (ms : list json) (s : locals) : locals :=
  Locals ms (answer s) (prompt_tokens s) (completion_tokens s)
         (answer_dict s) (rag_processing_error s) (calls s).
Definition set_answer (a : json) (s : locals) : locals :=
  Locals (messages s) a (prompt_tokens s) (completion_tokens s)
         (answer_dict s) (rag_processing_error s) (calls s).
Definition set_prompt_tokens (n : Z) (s : locals) : locals :=
  Locals (messages s) (answer s) n (completion_tokens s)
         (answer_dict s) (rag_processing_error s) (calls s).
Definition set_completion_tokens (n : Z) (s : locals) : locals :=
  Locals (messages s) (answer s) (prompt_tokens s) n
         (answer_dict s) (rag_processing_error s) (calls s).
Definition set_item (k : string) (v : json) (s : locals) : locals :=
  Locals (messages s) (answer s) (prompt_tokens s) (completion_tokens s)
         (<[k := v]> (answer_dict s)) (rag_processing_error s) (calls s).
Definition set_rag_processing_error (b : bool) (s : locals) : locals :=
  Locals (messages s) (answer s) (prompt_tokens s) (completion_tokens s)
         (answer_dict s) b (calls s).
Definition log (ev : event) (s : locals) : locals :=
  Locals (messages s) (answer s) (prompt_tokens s) (completion_tokens s)
         (answer_dict s) (rag_processing_error s) (calls s ++ [ev]).

(** ** Statements: state passing with exceptions

    A statement maps the locals to its outcome and the locals it leaves;
    what was assigned before an exception stays assigned. *)

Definition M (A : Type) : Type := locals -> result A * locals.

Definition ret {A : Type} (a : A) : M A := fun s => (Ok a, s).

Definition bind {A B : Type} (m : M A) (k : A -> M B) : M B :=
  fun s => match m s with
           | (Ok a, s') => k a s'
           | (Raise e, s') => (Raise e, s')
           end.

Definition lift {A : Type} (r : result A) : M A := fun s => (r, s).

Definition read {A : Type} (f : locals -> A) : M A := fun s => (Ok (f s), s).

Definition assign (f : locals -> locals) : M unit := fun s => (Ok tt, f s).

(** [try: body  except Exception as e: handler(e)] *)
Definition try_except {A : Type} (body : M A) (handler : exn -> M A) : M A :=
  fun s => match body s with
           | (Ok a, s') => (Ok a, s')
           | (Raise e, s') => handler e s'
           end.

Declare Scope py_scope.
Delimit Scope py_scope with py.
Notation "x <- m ;; k" := (bind m (fun x => k))
  (at level 100, m at next level, k at level 200, right associativity) : py_scope.
Notation "m ;; k" := (bind m (fun _ => k))
  (at level 100, k at level 200, right associativity) : py_scope.

(** ** [get_answer] *)

Section GetAnswer.

Context (env : Env).

Local Open Scope py_scope.

(** [function_dict]: the dispatch table, with its one entry. *)
Definition function_dict : list (string * (json -> result string)) :=
  [("get_sources", Retrieval env)].

Fixpoint table_get {A : Type} (k : string) (t : list (string * A)) : option A :=
  match t with
  | [] => None
  | (k', v) :: t' => if String.eqb k' k then Some v else table_get k t'
  end.

(** [function_dict[function_name]]: lists and dictionaries are not
    hashable, any other key that is not in the table is a [KeyError]. *)
Definition resolve (function_name : json) : result (json -> result string) :=
  match function_name with
  | JStr s => match table_get s function_dict with
              | Some f => Ok f
              | None => Raise (KeyError function_name)
              end
  | JList _ | JDict _ => Raise TypeError
  | _ => Raise (KeyError function_name)
  end.

(** [json.loads(v)]: only a text can be parsed. *)
Definition loads (v : json) : result json :=
  match v with
  | JStr s => json_loads env s
  | _ => Raise TypeError
  end.

(** [chat_complete(messages, functions=functions_definitions, function_call=mode)] *)
Definition call_chat_complete (mode : string) : M json :=
  fun s =>
    let out := chat_complete env (messages s) (functions_definitions env) mode in
    (out, log (ChatComplete (messages s) mode out) s).

(** [context_variables.update(function_args)] and
    [function_to_call(context_variables.variables)], then [.result]. *)
Definition call_function (function_name : json)
    (function_to_call : json -> result string) (function_args : json) : M string :=
  fun s =>
    let out := function_to_call function_args in
    (out, log (Invoke function_name function_args out) s).

(** [call_semantic_function(rag_plugin["groudedness"], context)], then [.result]. *)
Definition call_semantic_function (a sources : json) : M string :=
  fun s =>
    let out := groudedness env a sources in
    (out, log (Grounded a sources out) s).

(** [response['choices'][0]['message']] *)
Definition first_message (response : json) : result json :=
  and_then (Py.getitem response "choices") (fun choices =>
  and_then (Py.getitem0 choices) (fun choice =>
  Py.getitem choice "message")).

(** [response['usage'][key]] *)
Definition usage (response : json) (key : string) : result json :=
  and_then (Py.getitem response "usage") (fun u => Py.getitem u key).

(** [prompt_tokens += response['usage']['prompt_tokens']] and
    [completion_tokens += response['usage']['completion_tokens']] *)
Definition add_usage (response : json) : M unit :=
  n <- read prompt_tokens ;;
  p <- lift (usage response "prompt_tokens") ;;
  n' <- lift (Py.add n p) ;;
  assign (set_prompt_tokens n') ;;
  n <- read completion_tokens ;;
  c <- lift (usage response "completion_tokens") ;;
  n' <- lift (Py.add n c) ;;
  assign (set_completion_tokens n').

(** [messages.append({"role": m["role"], "content": m["content"]})] *)
Definition append_answer (response_message : json) : M unit :=
  role <- lift (Py.getitem response_message "role") ;;
  content <- lift (Py.getitem response_message "content") ;;
  ms <- read messages ;;
  assign (set_messages (ms ++ [JDict [("role", role); ("content", content)]])).

(** The two messages of lines 127-141. *)
Definition function_call_message (role function_name arguments : json) : json :=
  JDict [("role", role);
         ("function_call", JDict [("name", function_name); ("arguments", arguments)]);
         ("content", JNull)].

Definition function_result_message (function_name : json) (text : string) : json :=
  JDict [("role", JStr "function"); ("name", function_name); ("content", JStr text)].

(** The branch taken when ['function_call' in response_message]. *)
Definition function_round (response_message : json) : M unit :=
  fc <- lift (Py.getitem response_message "function_call") ;;
  function_name <- lift (Py.getitem fc "name") ;;
  fc <- lift (Py.getitem response_message "function_call") ;;
  arguments <- lift (Py.getitem fc "arguments") ;;
  function_args <- lift (loads arguments) ;;
  function_to_call <- lift (resolve function_name) ;;
  function_response <- call_function function_name function_to_call function_args ;;
  role <- lift (Py.getitem response_message "role") ;;
  fc <- lift (Py.getitem response_message "function_call") ;;
  arguments <- lift (Py.getitem fc "arguments") ;;
  ms <- read messages ;;
  assign (set_messages
            (ms ++ [function_call_message role function_name arguments;
                    function_result_message function_name function_response])) ;;
  response <- call_chat_complete "none" ;;
  response_message <- lift (first_message response) ;;
  add_usage response ;;
  append_answer response_message ;;
  if Py.eq_str function_name "get_sources" then
    question <- lift (Py.getitem function_args "question") ;;
    assign (set_item "search_query" question) ;;
    assign (set_item "sources" (JStr function_response))
  else ret tt.

(** The body of the [try] of lines 109-173. *)
Definition rag_flow : M unit :=
  response <- call_chat_complete "auto" ;;
  response_message <- lift (first_message response) ;;
  add_usage response ;;
  has_call <- lift (Py.is_in "function_call" response_message) ;;
  (if has_call : bool then function_round response_message
   else append_answer response_message) ;;
  ms <- read messages ;;
  last_message <- lift (Py.from_end ms 1) ;;
  content <- lift (Py.getitem last_message "content") ;;
  assign (set_answer content).

(** [f"{get_message('ERROR_ANSWER')} RAG flow: {e}"] *)
Definition error_answer (e : exn) : string :=
  get_message env "ERROR_ANSWER" +:+ " RAG flow: " +:+ str_exn env e.

(** Lines 109-178: the RAG flow under its handler. *)
Definition rag_round : M unit :=
  try_except rag_flow
    (fun e => assign (set_answer (JStr (error_answer e))) ;;
              assign (set_rag_processing_error true)).

(** The condition of line 187, evaluated from left to right; [failed] is
    [rag_processing_error]. *)
Definition grading_due (next_to_last : json) (failed : bool) : result bool :=
  and_then (Py.getitem next_to_last "role") (fun role =>
  if Py.eq_str role "function" then
    and_then (Py.getitem next_to_last "name") (fun name =>
    if Py.eq_str name "get_sources" then Ok (negb failed) else Ok false)
  else Ok false).

(** The body of the [try] of lines 188-201. *)
Definition grade (next_to_last : json) : M unit :=
  a <- read answer ;;
  sources <- lift (Py.getitem next_to_last "content") ;;
  semantic_response <- call_semantic_function a sources ;;
  if str_isdigit env semantic_response then
    gpt_groudedness <- lift (int_of_str env semantic_response) ;;
    (if (gpt_groudedness <? 3)%Z
     then assign (set_answer (JStr (get_message env "UNGROUNDED_ANSWER")))
     else ret tt) ;;
    assign (set_item "gpt_groudedness" (JInt gpt_groudedness))
  else ret tt.

(** Lines 186-203. *)
Definition quality_control : M unit :=
  ms <- read messages ;;
  next_to_last <- lift (Py.from_end ms 2) ;;
  failed <- read rag_processing_error ;;
  go <- lift (grading_due next_to_last failed) ;;
  if go : bool then try_except (grade next_to_last) (fun _ => ret tt)
  else ret tt.

(** Lines 205-210. *)
Definition assemble : M (gmap string json) :=
  assign (set_item "prompt" (JStr (prompt_file env))) ;;
  a <- read answer ;;
  assign (set_item "answer" a) ;;
  n <- read prompt_tokens ;;
  assign (set_item "prompt_tokens" (JInt n)) ;;
  n <- read completion_tokens ;;
  assign (set_item "completion_tokens" (JInt n)) ;;
  read answer_dict.

(** Lines 73-79 and 100-103: the locals before the RAG flow. *)
Definition system_message : json :=
  JDict [("role", JStr "system"); ("content", JStr (prompt_file env))].

Definition initial (history : list json) : locals :=
  {| messages := [system_message] ++ get_chat_history_as_messages env history;
     answer := JStr "";
     prompt_tokens := 0;
     completion_tokens := 0;
     answer_dict := ∅;
     rag_processing_error := false;
     calls := [] |}.

(** The locals when the RAG round is over. *)
Definition after_rag (history : list json) : locals :=
  snd (rag_round (initial history)).

(** The whole turn: what is returned or raised, and the final locals. *)
Definition turn (history : list json) : result (gmap string json) * locals :=
  (rag_round ;; quality_control ;; assemble) (initial history).

Definition get_answer (history : list json) : result (gmap string json) :=
  fst (turn history).

(** The calls made during the turn, oldest first. *)
Definition calls_of (history : list json) : list event :=
  calls (snd (turn history)).

End GetAnswer.

(** ** Vocabulary of the properties *)

(** The dictionary that lines 205-210 return for given locals. *)
Definition assembled (env : Env) (s : locals) : gmap string json :=
  <["completion_tokens" := JInt (completion_tokens s)]>
    (<["prompt_tokens" := JInt (prompt_tokens s)]>
       (<["answer" := answer s]>
          (<["prompt" := JStr (prompt_file env)]> (answer_dict s)))).

(** The four entries that every returned dictionary carries. *)
Definition well_formed_result (r : gmap string json) : Prop :=
  is_Some (r !! "prompt") /\ is_Some (r !! "answer") /\
  is_Some (r !! "prompt_tokens") /\ is_Some (r !! "completion_tokens").

(** The retrieval capability was called. *)
Definition retrieval_invoked (evs : list event) : Prop :=
  exists args out, Invoke (JStr "get_sources") args out ∈ evs.

(** The outcomes of the completion calls, oldest first. *)
Fixpoint completions (evs : list event) : list (result json) :=
  match evs with
  | [] => []
  | ChatComplete _ _ out :: evs' => out :: completions evs'
  | _ :: evs' => completions evs'
  end.

(** The sum of the usage values under [key] over completion outcomes. *)
Fixpoint total (key : string) (n : Z) (outs : list (result json)) : result Z :=
  match outs with
  | [] => Ok n
  | out :: outs' =>
      and_then out (fun response =>
      and_then (usage response key) (fun v =>
      and_then (Py.add n v) (fun n' => total key n' outs')))
  end.

(** The usage values of a completion, as the counters take them in. *)
Definition usage_counts (response : json) (p c : Z) : Prop :=
  exists pv cv,
    usage response "prompt_tokens" = Ok pv /\ Py.add 0 pv = Ok p /\
    usage response "completion_tokens" = Ok cv /\ Py.add 0 cv = Ok c.

(** The function-call directive of a message: the name and the text of
    the arguments. *)
Definition directive (m name raw : json) : Prop :=
  exists fc,
    Py.getitem m "function_call" = Ok fc /\
    Py.getitem fc "name" = Ok name /\
    Py.getitem fc "arguments" = Ok raw.

(** ** The retry decorator

    [@retry(wait=..., stop=stop_after_attempt(12), reraise=True)], on
    lines 40 and 45, around [call_semantic_function] and [chat_complete]:
    the decorated function is called again after each exception, until it
    returns or the attempt that [stop] names has raised; with [reraise]
    that last exception is raised as it is.  [attempt k] is the outcome of
    the [k]-th call of the function, counted from 1; the result is the
    outcome of the decorated call and the number of attempts made.  The
    waits between the attempts take time and change nothing else. *)
Definition stop_after_attempt : nat := 12.

Fixpoint retry_from {A : Type} (more k : nat) (attempt : nat -> result A)
    : result A * nat :=
  match attempt k with
  | Ok a => (Ok a, k)
  | Raise e =>
      match more with
      | O => (Raise e, k)
      | S more' => retry_from more' (S k) attempt
      end
  end.

Definition retry {A : Type} (attempt : nat -> result A) : result A * nat :=
  retry_from (stop_after_attempt - 1) 1 attempt.

(** ** Concrete turns

    Collaborators fixed by the outcome of each call, to run [get_answer]
    on the scenarios of the specification. *)

Module Scenario.

Definition quote : string := String (ascii_of_nat 34) EmptyString.

(** The text [{"question": "What is policy X?"}]. *)
Definition policy_arguments : string :=
  "{" +:+ quote +:+ "question" +:+ quote +:+ ": "
      +:+ quote +:+ "What is policy X?" +:+ quote +:+ "}".

(** [json.loads] on the three argument texts that occur below. *)
Definition loads_table (s : string) : result json :=
  if String.eqb s policy_arguments
  then Ok (JDict [("question", JStr "What is policy X?")])
  else if String.eqb s "{}" then Ok (JDict [])
  else Raise (Fault "Expecting value: line 1 column 1 (char 0)").

(** [str(e)] for the interpreter's exceptions that occur below. *)
Definition text_of (e : exn) : string :=
  match e with
  | KeyError (JStr k) => "'" +:+ k +:+ "'"
  | IndexError => "list index out of range"
  | _ => ""
  end.

(** The message texts stand for themselves. *)
Definition message_of (key : string) : string := "<" +:+ key +:+ ">".

Definition world (first second : result json) (retrieval evaluator : result string) : Env :=
  {| get_message := message_of;
     get_chat_history_as_messages := fun history => history;
     functions_definitions := JList [JDict [("name", JStr "get_sources")]];
     prompt_file := "You answer questions about policies.";
     json_loads := loads_table;
     builtin_text := text_of;
     str_isdigit := Py.isdigit;
     int_of_str := Py.int;
     chat_complete := fun _ _ mode => if String.eqb mode "auto" then first else second;
     Retrieval := fun _ => retrieval;
     groudedness := fun _ _ => evaluator |}.

Definition completion (message : json) (p c : Z) : json :=
  JDict [("choices", JList [JDict [("message", message)]]);
         ("usage", JDict [("prompt_tokens", JInt p); ("completion_tokens", JInt c)])].

Definition says (content : string) : json :=
  JDict [("role", JStr "assistant"); ("content", JStr content)].

Definition asks (name arguments : string) : json :=
  JDict [("role", JStr "assistant"); ("content", JNull);
         ("function_call", JDict [("name", JStr name); ("arguments", JStr arguments)])].

Definition user (content : string) : json :=
  JDict [("role", JStr "user"); ("content", JStr content)].

Definition unavailable : exn := Fault "503 Service Unavailable".

(** Retrieval, second completion, and a grade given by [evaluator]. *)
Definition policy (evaluator : string) : Env :=
  world (Ok (completion (asks "get_sources" policy_arguments) 120 18))
        (Ok (completion (says "Policy X requires ...") 260 40))
        (Ok "Policy X states ...")
        (Ok evaluator).

(** A direct reply. *)
Definition greeting : Env :=
  world (Ok (completion (says "Hello!") 50 3))
        (Raise unavailable) (Raise unavailable) (Ok "1").

(** The completion service is down. *)
Definition outage : Env :=
  world (Raise unavailable) (Raise unavailable) (Raise unavailable) (Raise unavailable).

(** The second completion is down after a retrieval that worked. *)
Definition interrupted : Env :=
  world (Ok (completion (asks "get_sources" policy_arguments) 120 18))
        (Raise unavailable) (Ok "Policy X states ...") (Ok "4").

(** A directive for a function that is not in the table. *)
Definition unknown : Env :=
  world (Ok (completion (asks "lookup_weather" "{}") 120 18))
        (Raise unavailable) (Raise unavailable) (Raise unavailable).

(** The same, with arguments that are not JSON. *)
Definition unknown_malformed : Env :=
  world (Ok (completion (asks "lookup_weather" "not json") 120 18))
        (Raise unavailable) (Raise unavailable) (Raise unavailable).


(** The histories. *)
Definition question : list json := [user "What is policy X?"].

Definition resumed : list json :=
  [user "What is policy X?";
   function_result_message (JStr "get_sources") "Policy X states ..."].

(** Whether a call returned, and what [get_answer] returned. *)
Definition returns {A : Type} (out : result A) : bool :=
  match out with
  | Ok _ => true
  | Raise _ => false
  end.

Definition returned (env : Env) (h : list json) : gmap string json :=
  match get_answer env h with
  | Ok r => r
  | Raise _ => ∅
  end.

(** The evaluator is down after a round that went through. *)
Definition ungraded : Env :=
  world (Ok (completion (asks "get_sources" policy_arguments) 120 18))
        (Ok (completion (says "Policy X requires ...") 260 40))
        (Ok "Policy X states ...")
        (Raise unavailable).

(** The retrieval is down. *)
Definition unreachable : Env :=
  world (Ok (completion (asks "get_sources" policy_arguments) 120 18))
        (Raise unavailable) (Raise unavailable) (Raise unavailable).

(** The completion service answers with an error body. *)
Definition throttled : Env :=
  world (Ok (JDict [("error", JDict [("code", JStr "429")])]))
        (Raise unavailable) (Raise unavailable) (Raise unavailable).

(** The attempts of a call that raises twice and then returns. *)
Definition flaky (k : nat) : result string :=
  if (k <? 3)%nat then Raise unavailable else Ok "4".

End Scenario.

(** * Properties *)

(** ** Indexing from the end *)

Lemma from_end_last {A : Type} (l : list A) (x : A) :
  Py.from_end (l ++ [x]) 1 = Ok x.
Proof.
  unfold Py.from_end. rewrite length_app.
  replace (1 <=? length l + length [x])%nat with true
    by (symmetry; apply Nat.leb_le; simpl; lia).
  rewrite nth_error_app2 by (simpl; lia).
  replace (length l + length [x] - 1 - length l)%nat with 0%nat by (simpl; lia).
  reflexivity.
Qed.

Lemma from_end_before_last {A : Type} (l : list A) (x : A) :
  Py.from_end (l ++ [x]) 2 = Py.from_end l 1.
Proof.
  destruct l as [|y l]; [reflexivity|].
  unfold Py.from_end. rewrite length_app.
  replace (2 <=? length (y :: l) + length [x])%nat with true
    by (symmetry; apply Nat.leb_le; simpl; lia).
  replace (1 <=? length (y :: l))%nat with true
    by (symmetry; apply Nat.leb_le; simpl; lia).
  replace (length (y :: l) + length [x] - 2)%nat with (length (y :: l) - 1)%nat
    by (simpl; lia).
  rewrite nth_error_app1 by (simpl; lia). reflexivity.
Qed.

Lemma from_end_last_two {A : Type} (l : list A) (x y : A) :
  Py.from_end (l ++ [x; y]) 1 = Ok y.
Proof.
  change [x; y] with ([x] ++ [y]). rewrite app_assoc. apply from_end_last.
Qed.

(** ** Running the statements *)

Ltac unfold_flow :=
  cbv [turn get_answer calls_of after_rag rag_round rag_flow function_round
       append_answer add_usage quality_control grade assemble
       call_chat_complete call_function call_semantic_function
       try_except bind ret lift read assign
       set_messages set_answer set_prompt_tokens set_completion_tokens
       set_item set_rag_processing_error log initial
       messages answer prompt_tokens completion_tokens answer_dict
       rag_processing_error calls fst snd].

Ltac unfold_flow_in H :=
  cbv [turn get_answer calls_of after_rag rag_round rag_flow function_round
       append_answer add_usage quality_control grade assemble
       call_chat_complete call_function call_semantic_function
       try_except bind ret lift read assign
       set_messages set_answer set_prompt_tokens set_completion_tokens
       set_item set_rag_processing_error log initial
       messages answer prompt_tokens completion_tokens answer_dict
       rag_processing_error calls fst snd] in H.

Ltac project :=
  cbn [messages answer prompt_tokens completion_tokens answer_dict
       rag_processing_error calls fst snd].

Ltac split_match :=
  match goal with
  | |- context [match ?x with _ => _ end] =>
      lazymatch x with
      | context [match _ with _ => _ end] => fail
      | _ => destruct x eqn:?
      end
  end.

Lemma getitem_reply_content (role content : json) :
  Py.getitem (JDict [("role", role); ("content", content)]) "content" = Ok content.
Proof. reflexivity. Qed.

Lemma getitem_result_content (name : json) (text : string) :
  Py.getitem (function_result_message name text) "content" = Ok (JStr text).
Proof. reflexivity. Qed.

Lemma grading_due_after_retrieval (text : string) (failed : bool) :
  grading_due (function_result_message (JStr "get_sources") text) failed
  = Ok (negb failed).
Proof. reflexivity. Qed.

Lemma resolve_get_sources (env : Env) :
  resolve env (JStr "get_sources") = Ok (Retrieval env).
Proof. reflexivity. Qed.

Lemma resolve_known (env : Env) (name : json) (f : json -> result string) :
  resolve env name = Ok f -> name = JStr "get_sources" /\ f = Retrieval env.
Proof.
  destruct name as [| | |s| |]; try discriminate.
  unfold resolve, function_dict, table_get.
  destruct (String.eqb "get_sources" s) eqn:E; [|discriminate].
  apply String.eqb_eq in E. subst s. intros [= <-]. split; reflexivity.
Qed.

Ltac explore :=
  repeat first
    [ progress (rewrite ?from_end_before_last, ?from_end_last, ?from_end_last_two,
                  ?getitem_reply_content, ?getitem_result_content,
                  ?grading_due_after_retrieval;
                cbv beta iota delta [negb])
    | split_match; cbv beta iota delta [negb]; try congruence ].

Section Execution.

Context (env : Env).

Lemma turn_finish (h : list json) :
  turn env h = (quality_control env ;; assemble env)%py (after_rag env h).
Proof.
  unfold turn, after_rag, rag_round, try_except, bind.
  destruct (rag_flow env (initial env h)) as [[[]|e] s']; reflexivity.
Qed.

Lemma after_rag_cases (h : list json) :
  match rag_flow env (initial env h) with
  | (Ok _, s) => after_rag env h = s
  | (Raise e, s) =>
      after_rag env h =
      set_rag_processing_error true (set_answer (JStr (error_answer env e)) s)
  end.
Proof.
  unfold after_rag, rag_round, try_except, bind, assign.
  destruct (rag_flow env (initial env h)) as [[[]|e] s']; reflexivity.
Qed.

(** The RAG flow leaves [rag_processing_error] alone, and assigns no entry
    of [answer_dict] but the two of lines 159-160. *)
Lemma rag_flow_frame (s : locals) :
  rag_processing_error (snd (rag_flow env s)) = rag_processing_error s /\
  forall k, k <> "search_query" -> k <> "sources" ->
            answer_dict (snd (rag_flow env s)) !! k = answer_dict s !! k.
Proof.
  destruct s as [ms a p c d f l]. unfold_flow. explore.
  all: split; [reflexivity|]; intros k Hq Hs; try reflexivity.
  all: rewrite !lookup_insert_ne by congruence; reflexivity.
Qed.

End Execution.

Lemma grading_due_true (m : json) (failed : bool) :
  grading_due m failed = Ok true -> failed = false.
Proof.
  unfold grading_due, and_then.
  repeat (split_match; try discriminate).
  destruct failed; [discriminate|reflexivity].
Qed.

Lemma completions_app (l l' : list event) :
  completions (l ++ l') = completions l ++ completions l'.
Proof.
  induction l as [|[] l IH]; simpl; [reflexivity| |assumption|assumption].
  rewrite IH. reflexivity.
Qed.

Ltac lookups :=
  repeat first [ rewrite lookup_insert_eq
               | rewrite lookup_insert_ne by congruence
               | rewrite lookup_empty ].

Section Finish.

Context (env : Env).

(** What the quality-control step and the assembly do to the locals that
    the RAG round left. *)
Lemma finish_frame (s s2 : locals) (r : gmap string json) :
  (quality_control env ;; assemble env)%py s = (Ok r, s2) ->
  r !! "sources" = answer_dict s !! "sources" /\
  r !! "search_query" = answer_dict s !! "search_query" /\
  r !! "error" = answer_dict s !! "error" /\
  r !! "prompt" = Some (JStr (prompt_file env)) /\
  r !! "prompt_tokens" = Some (JInt (prompt_tokens s)) /\
  r !! "completion_tokens" = Some (JInt (completion_tokens s)) /\
  completions (calls s2) = completions (calls s) /\
  (forall name args out,
      Invoke name args out ∈ calls s2 <-> Invoke name args out ∈ calls s) /\
  ((r !! "gpt_groudedness" = answer_dict s !! "gpt_groudedness" /\
    r !! "answer" = Some (answer s)) \/
   (exists n, rag_processing_error s = false /\
              r !! "gpt_groudedness" = Some (JInt n) /\
              r !! "answer" =
              Some (if (n <? 3)%Z then JStr (get_message env "UNGROUNDED_ANSWER")
                    else answer s))).
Proof.
  destruct s as [ms a p c d f l]. intros H. unfold_flow_in H. revert H.
  explore; intros [= <- <-]; project.
  all: lookups; repeat match goal with |- _ /\ _ => split end;
    try reflexivity.
  all: try (rewrite completions_app, app_nil_r; reflexivity).
  all: try (intros name args out; rewrite elem_of_app, list_elem_of_singleton;
            intuition congruence).
  all: try (left; split; reflexivity).
  all: right; eexists; split; [eauto using grading_due_true|].
  all: split; [reflexivity|].
  all: match goal with H : (_ <? 3)%Z = _ |- _ => rewrite H end; reflexivity.
Qed.

End Finish.

Ltac known :=
  repeat match goal with
         | H : resolve _ _ = Ok _ |- _ =>
             apply resolve_known in H; destruct H as [-> ->]
         end.

Ltac members :=
  rewrite ?elem_of_app, ?list_elem_of_singleton, ?elem_of_nil.

Section RagFacts.

Context (env : Env).

Lemma rag_other_entries (h : list json) (k : string) :
  k <> "search_query" -> k <> "sources" ->
  answer_dict (after_rag env h) !! k = None.
Proof.
  intros Hq Hs.
  pose proof (after_rag_cases env h) as Hc.
  pose proof (rag_flow_frame env (initial env h)) as [_ Hf].
  destruct (rag_flow env (initial env h)) as [[[]|e] s]; rewrite Hc; simpl in *.
  - rewrite Hf by assumption. apply lookup_empty.
  - rewrite Hf by assumption. apply lookup_empty.
Qed.

Lemma rag_sources_iff (h : list json) :
  is_Some (answer_dict (after_rag env h) !! "sources") <->
  retrieval_invoked (calls (after_rag env h)) /\
  rag_processing_error (after_rag env h) = false.
Proof.
  unfold retrieval_invoked. unfold_flow. explore; known; lookups.
  all: (split;
    [ intros [x Hx]; try discriminate; (split; [|reflexivity]);
      eexists _, _; members; eauto
    | intros [(args & out & Hin) Hf]; try discriminate; eauto ]).
  all: revert Hin; members; intuition congruence.
Qed.

Lemma rag_metadata (h : list json) (name args : json) (out : result string) :
  rag_processing_error (after_rag env h) = false ->
  Invoke name args out ∈ calls (after_rag env h) ->
  exists text question,
    out = Ok text /\ Py.getitem args "question" = Ok question /\
    answer_dict (after_rag env h) !! "sources" = Some (JStr text) /\
    answer_dict (after_rag env h) !! "search_query" = Some question.
Proof.
  unfold_flow. explore; known; lookups; try discriminate; intros _.
  all: members; intros Hin; try solve [exfalso; intuition congruence].
  all: destruct Hin as [[[[]|Hin]|Hin]|Hin]; try discriminate.
  all: injection Hin as -> -> ->; eexists _, _; repeat split; eassumption.
Qed.

Lemma rag_usage (h : list json) :
  rag_processing_error (after_rag env h) = false ->
  exists response m (b : bool),
    chat_complete env (messages (initial env h)) (functions_definitions env) "auto"
    = Ok response /\
    first_message response = Ok m /\
    Py.is_in "function_call" m = Ok b /\
    length (completions (calls (after_rag env h))) = (if b then 2 else 1)%nat /\
    total "prompt_tokens" 0 (completions (calls (after_rag env h)))
    = Ok (prompt_tokens (after_rag env h)) /\
    total "completion_tokens" 0 (completions (calls (after_rag env h)))
    = Ok (completion_tokens (after_rag env h)).
Proof.
  unfold_flow. explore; known; try discriminate; intros _.
  all: eexists _, _, _; repeat split; try eassumption; try reflexivity.
  all: simpl; unfold and_then;
    repeat match goal with H : _ = Ok _ |- _ => rewrite H end; reflexivity.
Qed.

End RagFacts.

Section Returns.

Context (env : Env).

(** The turn returns as soon as the condition of the quality-control step
    can be evaluated. *)
Lemma finish_returns (s : locals) (m : json) (b : bool) :
  Py.from_end (messages s) 2 = Ok m ->
  grading_due m (rag_processing_error s) = Ok b ->
  exists r s2, (quality_control env ;; assemble env)%py s = (Ok r, s2).
Proof.
  destruct s as [ms a p c d f l]. project. intros Hm Hb.
  unfold_flow. rewrite Hm, Hb. cbv beta iota. explore; eauto.
Qed.

(** Without grading the locals are assembled as the RAG round left
    them. *)
Lemma finish_closed (s : locals) (m : json) :
  Py.from_end (messages s) 2 = Ok m ->
  grading_due m (rag_processing_error s) = Ok false ->
  (quality_control env ;; assemble env)%py s
  = (Ok (assembled env s), snd (assemble env s)).
Proof.
  destruct s as [ms a p c d f l]. project. intros Hm Hb.
  unfold assembled. unfold_flow. rewrite Hm, Hb. reflexivity.
Qed.

Lemma get_answer_finish (h : list json) (r : gmap string json) :
  get_answer env h = Ok r ->
  exists s2, (quality_control env ;; assemble env)%py (after_rag env h) = (Ok r, s2)
             /\ calls_of env h = calls s2.
Proof.
  unfold get_answer, calls_of. rewrite turn_finish.
  destruct ((quality_control env ;; assemble env)%py (after_rag env h)) as [out s2].
  simpl. intros ->. eauto.
Qed.

End Returns.

Lemma error_answer_not_empty (env : Env) (e : exn) : error_answer env e <> "".
Proof.
  unfold error_answer. destruct (get_message env "ERROR_ANSWER"); discriminate.
Qed.

Section Escapes.

Context (env : Env).

(** X1.  An exception leaves [get_answer] only from lines 186-187: it is
    the one that [messages[-2]] raises, or the one that the reads of
    ['role'] and ['name'] in the condition of line 187 raise. *)
Lemma get_answer_escapes (h : list json) (e : exn) :
  get_answer env h = Raise e ->
  Py.from_end (messages (after_rag env h)) 2 = Raise e \/
  exists m, Py.from_end (messages (after_rag env h)) 2 = Ok m /\
            grading_due m (rag_processing_error (after_rag env h)) = Raise e.
Proof.
  unfold get_answer. rewrite turn_finish.
  destruct (after_rag env h) as [ms a p c d f l]. project.
  intros H. unfold_flow_in H. revert H.
  explore; intros [= <-]; eauto.
Qed.

(** X2.  When [messages[-2]] can be read and the condition of line 187
    evaluated, [get_answer] returns, and the returned dictionary has the
    four entries of lines 205-208. *)
Lemma get_answer_returns (h : list json) (m : json) (b : bool) :
  Py.from_end (messages (after_rag env h)) 2 = Ok m ->
  grading_due m (rag_processing_error (after_rag env h)) = Ok b ->
  exists r, get_answer env h = Ok r /\ well_formed_result r.
Proof.
  intros Hm Hb.
  destruct (finish_returns env _ _ _ Hm Hb) as (r & s2 & Hr).
  exists r. split.
  { unfold get_answer. rewrite turn_finish, Hr. reflexivity. }
  destruct (finish_frame env _ _ _ Hr)
    as (_ & _ & _ & Hp & Hpt & Hct & _ & _ & [[_ Ha]|(n & _ & _ & Ha)]).
  all: unfold well_formed_result; rewrite Hp, Hpt, Hct, Ha; eauto.
Qed.

(** With nothing but the system prompt to send, a failed first completion
    leaves a conversation of one message, and line 186 raises. *)
Lemma empty_conversation_escapes (h : list json) (e : exn) :
  get_chat_history_as_messages env h = [] ->
  chat_complete env [system_message env] (functions_definitions env) "auto"
  = Raise e ->
  get_answer env h = Raise IndexError.
Proof.
  intros Hh Hc. unfold_flow. rewrite Hh. simpl app. rewrite Hc. reflexivity.
Qed.

(** X18.  A completion in mode [none] is only requested after a first
    completion whose message carries a directive for [get_sources], and
    after the retrieval has returned a text; the conversation it is given
    is the one first sent, followed by the message that repeats the role
    of that first message and its directive, name and arguments, with a
    null content, and by the function message that carries the name and
    the text. *)
Lemma rag_second_request (h : list json) (ms : list json) (out : result json) :
  ChatComplete ms "none" out ∈ calls (after_rag env h) ->
  exists response m role raw args text,
    chat_complete env (messages (initial env h)) (functions_definitions env) "auto"
    = Ok response /\
    first_message response = Ok m /\
    Py.getitem m "role" = Ok role /\
    directive m (JStr "get_sources") raw /\
    loads env raw = Ok args /\
    Invoke (JStr "get_sources") args (Ok text) ∈ calls (after_rag env h) /\
    ms = messages (initial env h)
         ++ [JDict [("role", role);
                    ("function_call",
                     JDict [("name", JStr "get_sources"); ("arguments", raw)]);
                    ("content", JNull)];
             JDict [("role", JStr "function"); ("name", JStr "get_sources");
                    ("content", JStr text)]].
Proof.
  unfold_flow. explore; known; members; intros Hin.
  all: repeat match goal with
         | H : _ \/ _ |- _ => destruct H
         | H : False |- _ => destruct H
         end; try discriminate.
  all: match goal with H : ChatComplete _ _ _ = _ |- _ => injection H as -> _ end.
  all: match goal with
       | Hc : chat_complete _ _ _ "auto" = Ok ?response,
         Hm : first_message ?response = Ok ?m,
         Hr : Py.getitem ?m "role" = Ok ?role,
         Hf : Py.getitem ?m "function_call" = Ok ?fc,
         Hn : Py.getitem ?fc "name" = Ok _,
         Ha : Py.getitem ?fc "arguments" = Ok ?raw,
         Hl : loads _ ?raw = Ok ?args,
         Ht : Retrieval _ ?args = Ok ?text |- _ =>
           exists response, m, role, raw, args, text;
           split; [first [exact Hc|reflexivity]|]; split; [exact Hm|]; split; [exact Hr|];
           split; [exists fc; repeat split; assumption|];
           split; [exact Hl|]; split; [members; eauto|reflexivity]
       end.
Qed.

End Escapes.

(** ** Small facts about the operations *)

Lemma add_from (n p : Z) (v : json) :
  Py.add 0 v = Ok p -> Py.add n v = Ok (n + p).
Proof.
  destruct v as [|b|z| | |]; simpl; try discriminate; intros [= <-]; reflexivity.
Qed.

Lemma getitem_is_in (m v : json) (k : string) :
  Py.getitem m k = Ok v -> Py.is_in k m = Ok true.
Proof.
  destruct m; simpl; try discriminate.
  destruct (Py.dict_get k fields); [reflexivity|discriminate].
Qed.


Lemma grading_due_failed (m : json) (b : bool) :
  grading_due m true = Ok b -> b = false.
Proof.
  unfold grading_due, and_then.
  repeat (split_match; try discriminate); intros [= <-]; reflexivity.
Qed.

(** ** Evaluation of the concrete turns *)

Lemma returned_spec (env : Env) (h : list json) :
  Scenario.returns (get_answer env h) = true ->
  get_answer env h = Ok (Scenario.returned env h).
Proof.
  unfold Scenario.returned. destruct (get_answer env h); [reflexivity|discriminate].
Qed.

Ltac evaluate := first [apply returned_spec|idtac]; vm_compute; reflexivity.

(** * The claims *)

Import Scenario.

(** ** C1: the caller never sees an exception *)

(** C1.  The claim is that [get_answer] returns a well-formed dictionary
    for every history and never lets an exception reach the caller.  The
    code does not do so: on an empty history with the completion service
    down, the handler of the RAG round runs (and sets
    [rag_processing_error]), the conversation still holds the system
    message only, and [messages[-2]] on line 186, outside both [try]
    blocks, raises [IndexError]. *)
Theorem empty_history_outage_raises :
  rag_processing_error (after_rag outage []) = true /\
  length (messages (after_rag outage [])) = 1%nat /\
  get_answer outage [] = Raise IndexError.
Proof. repeat split; evaluate. Qed.

(** ** C2: the result of a failed RAG round *)

(** C2 (as amended).  When the RAG flow raises [e] and the condition of
    line 187 can be evaluated on the second-to-last message, [get_answer]
    returns a dictionary whose answer is the text of [ERROR_ANSWER], then
    [" RAG flow: "], then the text of [e], which is not empty; it has no
    [gpt_groudedness] entry, and no [error] entry either: the failure is
    kept in the local [rag_processing_error] only. *)
Theorem rag_failure_result (env : Env) (h : list json) (e : exn) (st : locals)
    (m : json) (b : bool) :
  rag_flow env (initial env h) = (Raise e, st) ->
  Py.from_end (messages st) 2 = Ok m ->
  grading_due m true = Ok b ->
  exists r,
    get_answer env h = Ok r /\
    r !! "answer"
    = Some (JStr (get_message env "ERROR_ANSWER" +:+ " RAG flow: " +:+ str_exn env e)) /\
    get_message env "ERROR_ANSWER" +:+ " RAG flow: " +:+ str_exn env e <> "" /\
    r !! "gpt_groudedness" = None /\
    r !! "error" = None.
Proof.
  intros Hflow Hm Hb.
  pose proof (after_rag_cases env h) as Hs. rewrite Hflow in Hs.
  pose proof (rag_other_entries env h "gpt_groudedness") as Hg.
  pose proof (rag_other_entries env h "error") as He.
  destruct (finish_returns env (after_rag env h) m b) as (r & s2 & Hr).
  { rewrite Hs. exact Hm. }
  { rewrite Hs. exact Hb. }
  exists r. split.
  { unfold get_answer. rewrite turn_finish, Hr. reflexivity. }
  destruct (finish_frame env _ _ _ Hr)
    as (_ & _ & Herr & _ & _ & _ & _ & _ & [[Hgpt Hans]|(n & Hf & _)]).
  - rewrite Hgpt, Herr, Hans, Hg, He by congruence. rewrite Hs.
    repeat split; try reflexivity. apply (error_answer_not_empty env e).
  - rewrite Hs in Hf. discriminate.
Qed.

(** C2, on the outage after one question. *)
Lemma rag_failure_result_witness :
  rag_flow outage (initial outage question)
  = (Raise unavailable, snd (rag_flow outage (initial outage question))) /\
  exists r,
    get_answer outage question = Ok r /\
    r !! "answer" = Some (JStr "<ERROR_ANSWER> RAG flow: 503 Service Unavailable") /\
    "<ERROR_ANSWER> RAG flow: 503 Service Unavailable" <> "" /\
    r !! "gpt_groudedness" = None /\
    r !! "error" = None.
Proof.
  split; [evaluate|].
  apply (rag_failure_result outage question unavailable
           (snd (rag_flow outage (initial outage question)))
           (system_message outage) false); evaluate.
Defined.

(** C2 as stated fails: the dictionary returned after the outage has no
    [error] entry, so it does not carry [error = true]. *)
Lemma outage_result_has_no_error_entry :
  exists e st r,
    rag_flow outage (initial outage question) = (Raise e, st) /\
    get_answer outage question = Ok r /\
    r !! "error" <> Some (JBool true).
Proof.
  exists unavailable, (snd (rag_flow outage (initial outage question))),
    (returned outage question).
  split; [evaluate|]. split; [evaluate|].
  vm_compute. discriminate.
Qed.

(** ** C3: the direct answer *)

Section Direct.

Context (env : Env).

(** The locals after a RAG round that answered directly. *)
Lemma rag_direct (h : list json) (response m : json) :
  chat_complete env (messages (initial env h)) (functions_definitions env) "auto"
  = Ok response ->
  first_message response = Ok m ->
  Py.is_in "function_call" m = Ok false ->
  rag_processing_error (after_rag env h) = false ->
  exists role content,
    Py.getitem m "content" = Ok content /\
    messages (after_rag env h)
    = messages (initial env h) ++ [JDict [("role", role); ("content", content)]] /\
    answer (after_rag env h) = content /\
    answer_dict (after_rag env h) = ∅.
Proof.
  intros Hc Hm Hin. project. cbv [initial messages] in Hc.
  unfold_flow. rewrite Hc, Hm. cbv beta iota.
  explore; try discriminate; intros _.
  eexists _, _. repeat split; eauto.
Qed.

End Direct.

(** C3 (as amended).  When the first completion carries no function-call
    directive, the RAG round raises nothing and the condition of line 187
    can be evaluated on the message before the appended answer, the last
    one of the conversation sent (so that [get_answer] returns), the
    returned dictionary has no [sources] and no [search_query]; and when
    that message is not a function result named [get_sources]
    ([b = false]), the answer is the content of the first completion's
    message and there is no [gpt_groudedness] entry. *)
Theorem direct_reply_result (env : Env) (h : list json) (response m prev : json)
    (b : bool) :
  chat_complete env (messages (initial env h)) (functions_definitions env) "auto"
  = Ok response ->
  first_message response = Ok m ->
  Py.is_in "function_call" m = Ok false ->
  rag_processing_error (after_rag env h) = false ->
  Py.from_end (messages (initial env h)) 1 = Ok prev ->
  grading_due prev false = Ok b ->
  exists r content,
    get_answer env h = Ok r /\
    Py.getitem m "content" = Ok content /\
    r !! "sources" = None /\
    r !! "search_query" = None /\
    (b = false -> r !! "answer" = Some content /\ r !! "gpt_groudedness" = None).
Proof.
  intros Hc Hm Hin Hok Hprev Hb.
  destruct (rag_direct env h response m Hc Hm Hin Hok)
    as (role & content & Hcontent & Hms & Hans & Hdict).
  assert (Hntl : Py.from_end (messages (after_rag env h)) 2 = Ok prev).
  { rewrite Hms, from_end_before_last. exact Hprev. }
  assert (Hdue : grading_due prev (rag_processing_error (after_rag env h)) = Ok b).
  { rewrite Hok. exact Hb. }
  destruct (finish_returns env _ _ _ Hntl Hdue) as (r & s2 & Hr).
  exists r, content. split.
  { unfold get_answer. rewrite turn_finish, Hr. reflexivity. }
  split; [exact Hcontent|].
  destruct (finish_frame env _ _ _ Hr) as (Hs & Hq & _).
  rewrite Hs, Hq, Hdict. repeat split; try apply lookup_empty.
  - subst b. rewrite (finish_closed env _ _ Hntl Hdue) in Hr.
    injection Hr as <- _. unfold assembled. lookups. congruence.
  - subst b. rewrite (finish_closed env _ _ Hntl Hdue) in Hr.
    injection Hr as <- _. unfold assembled. lookups. rewrite Hdict.
    apply lookup_empty.
Qed.

(** C3, on the greeting. *)
Lemma direct_reply_result_witness :
  chat_complete greeting (messages (initial greeting [user "Hi there"]))
    (functions_definitions greeting) "auto"
  = Ok (completion (says "Hello!") 50 3) /\
  exists r content,
    get_answer greeting [user "Hi there"] = Ok r /\
    Py.getitem (says "Hello!") "content" = Ok content /\
    r !! "sources" = None /\
    r !! "search_query" = None /\
    (false = false -> r !! "answer" = Some content /\ r !! "gpt_groudedness" = None).
Proof.
  split; [evaluate|].
  apply (direct_reply_result greeting [user "Hi there"]
           (completion (says "Hello!") 50 3) (says "Hello!")
           (user "Hi there") false); evaluate.
Defined.

(** C3 as stated fails: after a history that ends with a function result
    named [get_sources], a direct reply is graded; with the grade 1 the
    answer is the text of [UNGROUNDED_ANSWER], not the reply, and the score
    is in the result. *)
Lemma direct_reply_after_retrieval_result_is_graded :
  exists response m r,
    chat_complete greeting (messages (initial greeting resumed))
      (functions_definitions greeting) "auto" = Ok response /\
    first_message response = Ok m /\
    Py.is_in "function_call" m = Ok false /\
    Py.getitem m "content" = Ok (JStr "Hello!") /\
    get_answer greeting resumed = Ok r /\
    r !! "answer" = Some (JStr "<UNGROUNDED_ANSWER>") /\
    r !! "gpt_groudedness" = Some (JInt 1).
Proof.
  exists (completion (says "Hello!") 50 3), (says "Hello!"), (returned greeting resumed).
  repeat match goal with |- _ /\ _ => split end; evaluate.
Qed.

(** ** C4: which grades are recorded *)

(** C4 (as amended).  When the answer is graded and the evaluator returns
    [text]: the score is recorded when [text.isdigit()] holds and
    [int(text)] returns, and it is then [int(text)]; in every other case,
    that is when [isdigit] refuses the text or [int] raises on it, the
    score is left unset and the answer is the one the RAG round
    produced. *)
Theorem score_recorded_when_isdigit_and_int (env : Env) (h : list json)
    (m sources : json) (text : string) :
  Py.from_end (messages (after_rag env h)) 2 = Ok m ->
  grading_due m (rag_processing_error (after_rag env h)) = Ok true ->
  Py.getitem m "content" = Ok sources ->
  groudedness env (answer (after_rag env h)) sources = Ok text ->
  exists r,
    get_answer env h = Ok r /\
    (forall n, str_isdigit env text = true -> int_of_str env text = Ok n ->
               r !! "gpt_groudedness" = Some (JInt n)) /\
    (str_isdigit env text = false \/ (exists e, int_of_str env text = Raise e) ->
     r !! "gpt_groudedness" = None /\
     r !! "answer" = Some (answer (after_rag env h))).
Proof.
  pose proof (rag_other_entries env h "gpt_groudedness") as Hg.
  unfold get_answer. rewrite turn_finish.
  destruct (after_rag env h) as [ms a p c d f l]. project.
  intros Hm Hb Hc Ht. unfold_flow. rewrite Hm, Hb, Hc, Ht. cbv beta iota.
  destruct (str_isdigit env text) eqn:Hd; cbv beta iota.
  - destruct (int_of_str env text) as [n|e] eqn:Hn; cbv beta iota.
    + destruct (n <? 3)%Z; cbv beta iota.
      all: eexists; (split; [reflexivity|]); split.
      all: try (intros n' _ [= <-]; lookups; reflexivity).
      all: intros [Hfalse|[e He]]; discriminate.
    + eexists; (split; [reflexivity|]); split; [intros n' _ Hn'; discriminate|].
      intros _. lookups.
      split; [exact (Hg ltac:(congruence) ltac:(congruence))|reflexivity].
  - eexists; (split; [reflexivity|]); split; [intros n' Hd'; discriminate|].
    intros _. lookups.
    split; [exact (Hg ltac:(congruence) ltac:(congruence))|reflexivity].
Qed.

(** C4, on the policy question with the grade 4. *)
Lemma score_recorded_when_isdigit_and_int_witness :
  Py.from_end (messages (after_rag (policy "4") question)) 2
  = Ok (function_result_message (JStr "get_sources") "Policy X states ...") /\
  str_isdigit (policy "4") "4" = true /\
  int_of_str (policy "4") "4" = Ok 4 /\
  exists r,
    get_answer (policy "4") question = Ok r /\
    r !! "gpt_groudedness" = Some (JInt 4).
Proof.
  split; [evaluate|]. split; [evaluate|]. split; [evaluate|].
  destruct (score_recorded_when_isdigit_and_int (policy "4") question
              (function_result_message (JStr "get_sources") "Policy X states ...")
              (JStr "Policy X states ...") "4")
    as (r & Hr & Hrec & _); try evaluate.
  exists r. split; [exact Hr|]. apply Hrec; evaluate.
Defined.

(** C4 as stated fails: [int] reads [-1] and a 4 between blanks, and
    neither grade is recorded. *)
Lemma signed_and_padded_scores_are_dropped :
  Py.int "-1" = Ok (-1) /\ Py.int " 4 " = Ok 4 /\
  (exists r, get_answer (policy "-1") question = Ok r /\
             r !! "gpt_groudedness" = None) /\
  (exists r, get_answer (policy " 4 ") question = Ok r /\
             r !! "gpt_groudedness" = None).
Proof.
  split; [evaluate|]. split; [evaluate|]. split.
  - exists (returned (policy "-1") question). split; evaluate.
  - exists (returned (policy " 4 ") question). split; evaluate.
Qed.

(** ** C5: the threshold of the grade *)

(** C5.  When the returned dictionary carries a score [n]: below 3 the
    answer is the text of [UNGROUNDED_ANSWER]; from 3 on it is the answer
    the RAG round produced; in both cases [sources] and [search_query] are
    as the RAG round set them, and they are set whenever the retrieval
    was invoked in the turn. *)
Theorem graded_answer (env : Env) (h : list json) (r : gmap string json) (n : Z) :
  get_answer env h = Ok r ->
  r !! "gpt_groudedness" = Some (JInt n) ->
  (n < 3 -> r !! "answer" = Some (JStr (get_message env "UNGROUNDED_ANSWER"))) /\
  (3 <= n -> r !! "answer" = Some (answer (after_rag env h))) /\
  r !! "sources" = answer_dict (after_rag env h) !! "sources" /\
  r !! "search_query" = answer_dict (after_rag env h) !! "search_query" /\
  (retrieval_invoked (calls_of env h) ->
   is_Some (r !! "sources") /\ is_Some (r !! "search_query")).
Proof.
  intros Hr Hn.
  destruct (get_answer_finish env h r Hr) as (s2 & Hfin & Hcalls).
  destruct (finish_frame env _ _ _ Hfin)
    as (Hs & Hq & _ & _ & _ & _ & _ & Hinv & [[Hgpt _]|(n' & Hf & Hgpt & Hans)]).
  { rewrite Hgpt, rag_other_entries in Hn by congruence. discriminate. }
  rewrite Hgpt in Hn. injection Hn as ->.
  repeat split; try assumption.
  - intros Hlt. rewrite Hans. apply Z.ltb_lt in Hlt. rewrite Hlt. reflexivity.
  - intros Hge. rewrite Hans. apply Z.ltb_ge in Hge. rewrite Hge. reflexivity.
  - destruct H as (args & out & Hin). rewrite Hcalls in Hin. apply Hinv in Hin.
    destruct (rag_metadata env h _ _ _ Hf Hin) as (text & q & _ & _ & Hsrc & _).
    rewrite Hs, Hsrc. eauto.
  - destruct H as (args & out & Hin). rewrite Hcalls in Hin. apply Hinv in Hin.
    destruct (rag_metadata env h _ _ _ Hf Hin) as (text & q & _ & _ & _ & Hsq).
    rewrite Hq, Hsq. eauto.
Qed.

(** C5, on the policy question with the grade 1. *)
Lemma graded_answer_witness :
  get_answer (policy "1") question = Ok (returned (policy "1") question) /\
  returned (policy "1") question !! "gpt_groudedness" = Some (JInt 1) /\
  (1 < 3 -> returned (policy "1") question !! "answer"
            = Some (JStr (get_message (policy "1") "UNGROUNDED_ANSWER"))) /\
  (3 <= 1 -> returned (policy "1") question !! "answer"
             = Some (answer (after_rag (policy "1") question))) /\
  returned (policy "1") question !! "sources"
  = answer_dict (after_rag (policy "1") question) !! "sources" /\
  returned (policy "1") question !! "search_query"
  = answer_dict (after_rag (policy "1") question) !! "search_query" /\
  (retrieval_invoked (calls_of (policy "1") question) ->
   is_Some (returned (policy "1") question !! "sources") /\
   is_Some (returned (policy "1") question !! "search_query")).
Proof.
  split; [evaluate|]. split; [evaluate|].
  apply (graded_answer (policy "1") question (returned (policy "1") question) 1);
    evaluate.
Defined.

(** ** C6: when [sources] is set *)

(** C6 (as amended).  In a returned dictionary [sources] is present
    exactly when the retrieval was invoked and the RAG round then went on
    to its end without an exception. *)
Theorem sources_iff_round_completed (env : Env) (h : list json)
    (r : gmap string json) :
  get_answer env h = Ok r ->
  (is_Some (r !! "sources") <->
   retrieval_invoked (calls_of env h) /\
   rag_processing_error (after_rag env h) = false).
Proof.
  intros Hr.
  destruct (get_answer_finish env h r Hr) as (s2 & Hfin & Hcalls).
  destruct (finish_frame env _ _ _ Hfin) as (Hs & _ & _ & _ & _ & _ & _ & Hinv & _).
  rewrite Hs, rag_sources_iff, Hcalls. unfold retrieval_invoked.
  split; intros [(args & out & Hin) Hf]; (split; [|assumption]);
    exists args, out; apply Hinv; assumption.
Qed.

(** C6, on the policy question. *)
Lemma sources_iff_round_completed_witness :
  get_answer (policy "4") question = Ok (returned (policy "4") question) /\
  (is_Some (returned (policy "4") question !! "sources") <->
   retrieval_invoked (calls_of (policy "4") question) /\
   rag_processing_error (after_rag (policy "4") question) = false).
Proof.
  split; [evaluate|].
  apply (sources_iff_round_completed (policy "4") question
           (returned (policy "4") question)); evaluate.
Defined.

(** C6 as stated fails: the retrieval is invoked, the second completion
    raises, and the returned dictionary has no [sources]. *)
Lemma retrieval_invoked_but_no_sources :
  exists r,
    get_answer interrupted question = Ok r /\
    retrieval_invoked (calls_of interrupted question) /\
    r !! "sources" = None.
Proof.
  exists (returned interrupted question).
  split; [evaluate|]. split; [|evaluate].
  exists (JDict [("question", JStr "What is policy X?")]), (Ok "Policy X states ...").
  vm_compute. apply list_elem_of_In. simpl. auto.
Qed.

(** ** C7: the request of the second completion *)

(** C7.  When the first completion carries a directive for a function of
    the dispatch table, its arguments parse and the capability returns
    [text], a second completion is requested in mode [none], right after
    the capability was invoked; the conversation it is given is the one
    first sent, then the function-call message, which has the role of the
    first completion's message, the name and the arguments of its
    directive and a null content, and immediately after it the function
    message with the same name and [text] as content. *)
Theorem second_completion_request (env : Env) (h : list json)
    (response m name raw args role : json) (p c : Z) (text : string)
    (capability : json -> result string) :
  chat_complete env (messages (initial env h)) (functions_definitions env) "auto"
  = Ok response ->
  first_message response = Ok m ->
  usage_counts response p c ->
  directive m name raw ->
  Py.getitem m "role" = Ok role ->
  loads env raw = Ok args ->
  resolve env name = Ok capability ->
  capability args = Ok text ->
  exists out rest,
    calls_of env h
    = [ChatComplete (messages (initial env h)) "auto" (Ok response);
       Invoke name args (Ok text);
       ChatComplete
         (messages (initial env h)
          ++ [JDict [("role", role);
                     ("function_call",
                      JDict [("name", name); ("arguments", raw)]);
                     ("content", JNull)];
              JDict [("role", JStr "function"); ("name", name);
                     ("content", JStr text)]])
         "none" out] ++ rest.
Proof.
  intros Hc Hm (pv & cv & Hpv & Hp & Hcv & Hcc) (fc & Hfc & Hname & Hraw)
    Hrole Hargs Hres Hcap.
  pose proof (getitem_is_in _ _ _ Hfc) as Hin.
  cbv [initial messages] in Hc.
  unfold_flow.
  rewrite Hc, Hm, Hpv, Hp, Hcv, Hcc, Hin, Hfc, Hname, Hraw, Hargs, Hres, Hcap, Hrole.
  cbv beta iota.
  explore.
  all: eexists _, _; simpl app; reflexivity.
Qed.

(** C7, on the policy question. *)
Lemma second_completion_request_witness :
  directive (asks "get_sources" policy_arguments)
    (JStr "get_sources") (JStr policy_arguments) /\
  exists out rest,
    calls_of (policy "4") question
    = [ChatComplete (messages (initial (policy "4") question)) "auto"
         (Ok (completion (asks "get_sources" policy_arguments) 120 18));
       Invoke (JStr "get_sources") (JDict [("question", JStr "What is policy X?")])
         (Ok "Policy X states ...");
       ChatComplete
         (messages (initial (policy "4") question)
          ++ [JDict [("role", JStr "assistant");
                     ("function_call",
                      JDict [("name", JStr "get_sources");
                             ("arguments", JStr policy_arguments)]);
                     ("content", JNull)];
              JDict [("role", JStr "function"); ("name", JStr "get_sources");
                     ("content", JStr "Policy X states ...")]])
         "none" out] ++ rest.
Proof.
  assert (Hd : directive (asks "get_sources" policy_arguments)
                 (JStr "get_sources") (JStr policy_arguments)).
  { eexists. repeat split; evaluate. }
  split; [exact Hd|].
  apply (second_completion_request (policy "4") question
           (completion (asks "get_sources" policy_arguments) 120 18)
           (asks "get_sources" policy_arguments)
           (JStr "get_sources") (JStr policy_arguments)
           (JDict [("question", JStr "What is policy X?")]) (JStr "assistant")
           120 18 "Policy X states ..." (Retrieval (policy "4")));
    try exact Hd; try evaluate.
  exists (JInt 120), (JInt 18). repeat split; evaluate.
Defined.

(** ** C8: the token counters *)

(** C8.  When the RAG round raises nothing, the returned [prompt_tokens]
    and [completion_tokens] are the sums of the usage values over the
    completion calls of the turn, which are one when the first message
    carries no function-call directive and two when it does. *)
Theorem token_totals (env : Env) (h : list json) (r : gmap string json) :
  get_answer env h = Ok r ->
  rag_processing_error (after_rag env h) = false ->
  exists response m (b : bool) p c,
    chat_complete env (messages (initial env h)) (functions_definitions env) "auto"
    = Ok response /\
    first_message response = Ok m /\
    Py.is_in "function_call" m = Ok b /\
    length (completions (calls_of env h)) = (if b then 2 else 1)%nat /\
    total "prompt_tokens" 0 (completions (calls_of env h)) = Ok p /\
    total "completion_tokens" 0 (completions (calls_of env h)) = Ok c /\
    r !! "prompt_tokens" = Some (JInt p) /\
    r !! "completion_tokens" = Some (JInt c).
Proof.
  intros Hr Hok.
  destruct (get_answer_finish env h r Hr) as (s2 & Hfin & Hcalls).
  destruct (finish_frame env _ _ _ Hfin) as (_ & _ & _ & _ & Hp & Hc & Hcs & _).
  destruct (rag_usage env h Hok) as (response & m & b & H1 & H2 & H3 & H4 & H5 & H6).
  exists response, m, b, (prompt_tokens (after_rag env h)),
    (completion_tokens (after_rag env h)).
  rewrite Hcalls, Hcs. repeat split; assumption.
Qed.

(** C8, on the policy question: 120 + 260 and 18 + 40 tokens. *)
Lemma token_totals_witness :
  get_answer (policy "4") question = Ok (returned (policy "4") question) /\
  returned (policy "4") question !! "prompt_tokens" = Some (JInt 380) /\
  returned (policy "4") question !! "completion_tokens" = Some (JInt 58) /\
  exists response m (b : bool) p c,
    chat_complete (policy "4") (messages (initial (policy "4") question))
      (functions_definitions (policy "4")) "auto" = Ok response /\
    first_message response = Ok m /\
    Py.is_in "function_call" m = Ok b /\
    length (completions (calls_of (policy "4") question)) = (if b then 2 else 1)%nat /\
    total "prompt_tokens" 0 (completions (calls_of (policy "4") question)) = Ok p /\
    total "completion_tokens" 0 (completions (calls_of (policy "4") question)) = Ok c /\
    returned (policy "4") question !! "prompt_tokens" = Some (JInt p) /\
    returned (policy "4") question !! "completion_tokens" = Some (JInt c).
Proof.
  split; [evaluate|]. split; [evaluate|]. split; [evaluate|].
  apply (token_totals (policy "4") question (returned (policy "4") question));
    evaluate.
Defined.

(** ** C9: a directive for an unknown function *)

(** C9 (as amended).  When the first completion's directive names a
    function that [function_dict] does not resolve, and the condition of
    line 187 can be evaluated on the second-to-last message of the
    conversation sent, [get_answer] returns the error answer of the first
    exception of the round, which is the failure of the lookup when the
    usage values were counted and the arguments parsed, and that of the
    earlier step otherwise; the only call of the turn is the first
    completion, and the result has no [sources], [search_query] or
    [gpt_groudedness]. *)
Theorem unknown_function_result (env : Env) (h : list json)
    (response m fc name prev : json) (e0 : exn) (b : bool) :
  chat_complete env (messages (initial env h)) (functions_definitions env) "auto"
  = Ok response ->
  first_message response = Ok m ->
  Py.getitem m "function_call" = Ok fc ->
  Py.getitem fc "name" = Ok name ->
  resolve env name = Raise e0 ->
  Py.from_end (messages (initial env h)) 2 = Ok prev ->
  grading_due prev true = Ok b ->
  exists r e,
    get_answer env h = Ok r /\
    rag_processing_error (after_rag env h) = true /\
    r !! "answer" = Some (JStr (error_answer env e)) /\
    ((exists p c raw args,
         usage_counts response p c /\ Py.getitem fc "arguments" = Ok raw /\
         loads env raw = Ok args) -> e = e0) /\
    calls_of env h
    = [ChatComplete (messages (initial env h)) "auto" (Ok response)] /\
    r !! "sources" = None /\
    r !! "search_query" = None /\
    r !! "gpt_groudedness" = None.
Proof.
  intros Hc Hm Hfc Hname Hres Hprev Hb.
  pose proof (getitem_is_in _ _ _ Hfc) as Hin.
  apply grading_due_failed in Hb as Hf. subst b.
  cbv [initial messages] in Hc, Hprev.
  unfold_flow. rewrite Hc, Hm. cbv beta iota.
  explore.
  all: rewrite ?Hprev, ?Hb; cbv beta iota.
  all: eexists _, _; repeat match goal with |- _ /\ _ => split end;
    try reflexivity.
  all: try (lookups; reflexivity).
  all: intros (p & c & raw & args & (pv & cv & ? & ? & ? & ?) & ? & ?); congruence.
Qed.

(** C9, on a directive for [lookup_weather] with the arguments [{}]. *)
Lemma unknown_function_result_witness :
  resolve unknown (JStr "lookup_weather") = Raise (KeyError (JStr "lookup_weather")) /\
  exists r e,
    get_answer unknown question = Ok r /\
    rag_processing_error (after_rag unknown question) = true /\
    r !! "answer" = Some (JStr (error_answer unknown e)) /\
    ((exists p c raw args,
         usage_counts (completion (asks "lookup_weather" "{}") 120 18) p c /\
         Py.getitem (JDict [("name", JStr "lookup_weather"); ("arguments", JStr "{}")])
           "arguments" = Ok raw /\
         loads unknown raw = Ok args) -> e = KeyError (JStr "lookup_weather")) /\
    calls_of unknown question
    = [ChatComplete (messages (initial unknown question)) "auto"
         (Ok (completion (asks "lookup_weather" "{}") 120 18))] /\
    r !! "sources" = None /\
    r !! "search_query" = None /\
    r !! "gpt_groudedness" = None.
Proof.
  split; [evaluate|].
  apply (unknown_function_result unknown question
           (completion (asks "lookup_weather" "{}") 120 18)
           (asks "lookup_weather" "{}")
           (JDict [("name", JStr "lookup_weather"); ("arguments", JStr "{}")])
           (JStr "lookup_weather") (system_message unknown)
           (KeyError (JStr "lookup_weather")) false); evaluate.
Defined.

(** C9 as stated fails: when the arguments of the directive are not JSON,
    the round ends at [json.loads] on line 120, before the lookup of line
    121, and the error answer is made from the failure of the parser, not
    from that of the lookup. *)
Lemma malformed_arguments_mask_lookup_failure :
  resolve unknown_malformed (JStr "lookup_weather")
  = Raise (KeyError (JStr "lookup_weather")) /\
  fst (rag_flow unknown_malformed (initial unknown_malformed question))
  = Raise (Fault "Expecting value: line 1 column 1 (char 0)") /\
  exists r,
    get_answer unknown_malformed question = Ok r /\
    r !! "answer"
    = Some (JStr "<ERROR_ANSWER> RAG flow: Expecting value: line 1 column 1 (char 0)") /\
    r !! "answer"
    <> Some (JStr (error_answer unknown_malformed (KeyError (JStr "lookup_weather")))).
Proof.
  split; [evaluate|]. split; [evaluate|].
  exists (returned unknown_malformed question).
  split; [evaluate|]. split; [evaluate|].
  vm_compute. discriminate.
Qed.

(** ** C10: retrieval arguments without a question *)



(** * Further properties of [get_answer] and of the retries *)

(** ** The paths of a turn *)

Section Paths.

Context (env : Env).

(** The calls of the RAG round: the first completion, then at most the
    capability, then at most the second completion. *)
Lemma rag_calls (h : list json) :
  exists out1,
    calls (after_rag env h)
    = [ChatComplete (messages (initial env h)) "auto" out1] \/
    (exists args out,
        rag_processing_error (after_rag env h) = true /\
        calls (after_rag env h)
        = [ChatComplete (messages (initial env h)) "auto" out1;
           Invoke (JStr "get_sources") args out]) \/
    (exists args text ms out2,
        calls (after_rag env h)
        = [ChatComplete (messages (initial env h)) "auto" out1;
           Invoke (JStr "get_sources") args (Ok text);
           ChatComplete ms "none" out2]).
Proof.
  unfold_flow. explore; known; eexists; simpl app; eauto 8.
Qed.

(** The conversation after the RAG round. *)
Lemma rag_messages (h : list json) :
  exists extra,
    messages (after_rag env h) = messages (initial env h) ++ extra /\
    (length extra <= 3)%nat /\
    (rag_processing_error (after_rag env h) = false -> extra <> []).
Proof.
  unfold_flow. explore.
  all: first
    [ exists []; rewrite app_nil_r; repeat split;
      [simpl; lia | discriminate]
    | rewrite <- app_assoc; eexists; repeat split;
      [simpl; lia | discriminate]
    | eexists; repeat split; [simpl; lia | discriminate] ].
Qed.

(** A round that went through the capability and raised nothing. *)
Lemma rag_completed (h : list json) (name args : json) (out : result string) :
  rag_processing_error (after_rag env h) = false ->
  Invoke name args out ∈ calls (after_rag env h) ->
  exists role raw text reply,
    out = Ok text /\
    messages (after_rag env h)
    = messages (initial env h)
      ++ [function_call_message role name raw;
          function_result_message name text; reply].
Proof.
  unfold_flow. explore; known; try discriminate; intros _.
  all: members; intros Hin; try solve [exfalso; intuition congruence].
  all: destruct Hin as [[[[]|Hin]|Hin]|Hin]; try discriminate.
  all: injection Hin as -> -> ->; rewrite <- app_assoc; eexists _, _, _, _;
    split; reflexivity.
Qed.

(** What the quality-control step and the assembly add to the call log,
    whether they return or raise. *)
Lemma finish_calls (s : locals) :
  messages (snd ((quality_control env ;; assemble env)%py s)) = messages s /\
  (calls (snd ((quality_control env ;; assemble env)%py s)) = calls s \/
   exists m src,
     Py.from_end (messages s) 2 = Ok m /\
     grading_due m (rag_processing_error s) = Ok true /\
     Py.getitem m "content" = Ok src /\
     calls (snd ((quality_control env ;; assemble env)%py s))
     = calls s ++ [Grounded (answer s) src (groudedness env (answer s) src)]).
Proof.
  destruct s as [ms a p c d f l]. unfold_flow.
  explore; (split; [reflexivity|]); try (left; reflexivity).
  all: right; eexists _, _; repeat split; try eassumption.
  all: match goal with H : groudedness _ _ _ = _ |- _ => rewrite H end; reflexivity.
Qed.

Lemma from_end_middle {A : Type} (l : list A) (x y z : A) :
  Py.from_end (l ++ [x; y; z]) 2 = Ok y.
Proof.
  change [x; y; z] with ([x] ++ [y; z]). rewrite app_assoc.
  change [y; z] with ([y] ++ [z]). rewrite app_assoc, from_end_before_last.
  apply from_end_last.
Qed.

Lemma eq_str_true (v : json) (s : string) : Py.eq_str v s = true -> v = JStr s.
Proof.
  destruct v; simpl; try discriminate. intros H. apply String.eqb_eq in H.
  congruence.
Qed.

Lemma grading_due_true_inv (m : json) (failed : bool) :
  grading_due m failed = Ok true ->
  Py.getitem m "role" = Ok (JStr "function") /\
  Py.getitem m "name" = Ok (JStr "get_sources") /\
  failed = false.
Proof.
  unfold grading_due, and_then.
  destruct (Py.getitem m "role") as [role|] eqn:Hr; [|discriminate].
  destruct (Py.eq_str role "function") eqn:Er; [|discriminate].
  destruct (Py.getitem m "name") as [name|] eqn:Hn; [|discriminate].
  destruct (Py.eq_str name "get_sources") eqn:En; [|discriminate].
  apply eq_str_true in Er, En. subst. destruct failed; [discriminate|].
  intros _. repeat split.
Qed.

(** The entries of the returned dictionary that lines 195-208 do not
    assign, and where a score comes from. *)
Lemma finish_entries (s s2 : locals) (r : gmap string json) :
  (quality_control env ;; assemble env)%py s = (Ok r, s2) ->
  (forall k, k <> "prompt" -> k <> "answer" -> k <> "prompt_tokens" ->
             k <> "completion_tokens" -> k <> "gpt_groudedness" ->
             r !! k = answer_dict s !! k) /\
  (r !! "gpt_groudedness" = answer_dict s !! "gpt_groudedness" \/
   exists src text n,
     Grounded (answer s) src (Ok text) ∈ calls s2 /\
     str_isdigit env text = true /\ int_of_str env text = Ok n /\
     r !! "gpt_groudedness" = Some (JInt n)).
Proof.
  destruct s as [ms a p c d f l]. intros H. unfold_flow_in H. revert H.
  explore; intros [= <- <-]; project.
  all: split; [intros k ? ? ? ? ?; lookups; reflexivity|].
  all: lookups; try (left; reflexivity).
  all: right; eexists _, _, _; repeat split; try eassumption.
  all: members; right; reflexivity.
Qed.

(** When [sources] or [search_query] is set after the RAG round, both
    are. *)
Lemma rag_query_iff_sources (h : list json) :
  is_Some (answer_dict (after_rag env h) !! "search_query") <->
  is_Some (answer_dict (after_rag env h) !! "sources").
Proof.
  unfold_flow. explore; lookups; split; intros [x Hx]; try discriminate; eauto.
Qed.

End Paths.


(** ** Where [get_answer] raises and what it returns *)

(** X1, on the outage with an empty history: the exception is that of
    [messages[-2]]. *)
Lemma get_answer_escapes_witness :
  get_answer outage [] = Raise IndexError /\
  (Py.from_end (messages (after_rag outage [])) 2 = Raise IndexError \/
   exists m, Py.from_end (messages (after_rag outage [])) 2 = Ok m /\
             grading_due m (rag_processing_error (after_rag outage []))
             = Raise IndexError).
Proof.
  split; [evaluate|].
  apply (get_answer_escapes outage [] IndexError); evaluate.
Defined.

(** X2, on the policy question. *)
Lemma get_answer_returns_witness :
  Py.from_end (messages (after_rag (policy "4") question)) 2
  = Ok (function_result_message (JStr "get_sources") "Policy X states ...") /\
  exists r, get_answer (policy "4") question = Ok r /\ well_formed_result r.
Proof.
  split; [evaluate|].
  apply (get_answer_returns (policy "4") question
           (function_result_message (JStr "get_sources") "Policy X states ...")
           true); evaluate.
Defined.

(** X18, on the policy question. *)
Lemma rag_second_request_witness :
  ChatComplete
    (messages (initial (policy "4") question)
     ++ [function_call_message (JStr "assistant") (JStr "get_sources")
           (JStr policy_arguments);
         function_result_message (JStr "get_sources") "Policy X states ..."])
    "none" (Ok (completion (says "Policy X requires ...") 260 40))
  ∈ calls (after_rag (policy "4") question) /\
  exists response m role raw args text,
    chat_complete (policy "4") (messages (initial (policy "4") question))
      (functions_definitions (policy "4")) "auto" = Ok response /\
    first_message response = Ok m /\
    Py.getitem m "role" = Ok role /\
    directive m (JStr "get_sources") raw /\
    loads (policy "4") raw = Ok args /\
    Invoke (JStr "get_sources") args (Ok text)
    ∈ calls (after_rag (policy "4") question) /\
    messages (initial (policy "4") question)
    ++ [function_call_message (JStr "assistant") (JStr "get_sources")
          (JStr policy_arguments);
        function_result_message (JStr "get_sources") "Policy X states ..."]
    = messages (initial (policy "4") question)
      ++ [JDict [("role", role);
                 ("function_call",
                  JDict [("name", JStr "get_sources"); ("arguments", raw)]);
                 ("content", JNull)];
          JDict [("role", JStr "function"); ("name", JStr "get_sources");
                 ("content", JStr text)]].
Proof.
  assert (Hin : ChatComplete
                  (messages (initial (policy "4") question)
                   ++ [function_call_message (JStr "assistant") (JStr "get_sources")
                         (JStr policy_arguments);
                       function_result_message (JStr "get_sources")
                         "Policy X states ..."])
                  "none" (Ok (completion (says "Policy X requires ...") 260 40))
                ∈ calls (after_rag (policy "4") question)).
  { vm_compute. apply list_elem_of_In. simpl. auto. }
  split; [exact Hin|].
  exact (rag_second_request (policy "4") question _ _ Hin).
Defined.

(** X3.  The calls of a turn, in order: the first completion on the system
    prompt and the history; then either nothing, or the evaluator, or the
    retrieval alone (the round failed there or right after), or the
    retrieval and the second completion, or these two and the evaluator.
    So a turn makes at most two completion calls, one retrieval and one
    evaluation, and never grades before it has an answer. *)
Theorem calls_in_order (env : Env) (h : list json) :
  exists out1 tail,
    calls_of env h
    = ChatComplete (messages (initial env h)) "auto" out1 :: tail /\
    (tail = [] \/
     (exists a src out, tail = [Grounded a src out]) \/
     (exists args out, tail = [Invoke (JStr "get_sources") args out]) \/
     (exists args text ms out2,
         tail = [Invoke (JStr "get_sources") args (Ok text);
                 ChatComplete ms "none" out2]) \/
     (exists args text ms out2 a src out,
         tail = [Invoke (JStr "get_sources") args (Ok text);
                 ChatComplete ms "none" out2;
                 Grounded a src out])).
Proof.
  unfold calls_of. rewrite turn_finish.
  destruct (rag_calls env h) as (out1 & Hcalls).
  destruct (finish_calls env (after_rag env h)) as (_ & [Hsame|Hmore]).
  - rewrite Hsame.
    destruct Hcalls as [->|[(args & out & _ & ->)|(args & text & ms & out2 & ->)]];
      eexists _, _; (split; [reflexivity|]); eauto 12.
  - destruct Hmore as (m & src & _ & Hdue & _ & ->).
    apply grading_due_true_inv in Hdue as (_ & _ & Hok).
    destruct Hcalls as [->|[(args & out & Hf & _)|(args & text & ms & out2 & ->)]];
      [|congruence|]; eexists _, _; (split; [reflexivity|]); eauto 14.
Qed.

(** X4.  A failure of the evaluation is not a failure of the turn: when
    the answer is due for grading and either the content of the
    second-to-last message cannot be read or the evaluator raises,
    [get_answer] returns the answer of the RAG round, without a score and
    with the retrieval metadata as the round set it. *)
Theorem evaluator_failure_is_soft (env : Env) (h : list json) (m : json) (e : exn) :
  Py.from_end (messages (after_rag env h)) 2 = Ok m ->
  grading_due m (rag_processing_error (after_rag env h)) = Ok true ->
  (Py.getitem m "content" = Raise e \/
   exists src, Py.getitem m "content" = Ok src /\
               groudedness env (answer (after_rag env h)) src = Raise e) ->
  exists r,
    get_answer env h = Ok r /\
    r !! "answer" = Some (answer (after_rag env h)) /\
    r !! "gpt_groudedness" = None /\
    r !! "sources" = answer_dict (after_rag env h) !! "sources" /\
    r !! "search_query" = answer_dict (after_rag env h) !! "search_query".
Proof.
  pose proof (rag_other_entries env h "gpt_groudedness") as Hg.
  unfold get_answer. rewrite turn_finish.
  destruct (after_rag env h) as [ms a p c d f l]. project.
  intros Hm Hb [Hc|(src & Hc & He)]; unfold_flow; rewrite Hm, Hb, Hc;
    cbv beta iota; rewrite ?He; cbv beta iota.
  all: eexists; (split; [reflexivity|]); lookups.
  all: repeat split; try reflexivity.
  all: exact (Hg ltac:(congruence) ltac:(congruence)).
Qed.

(** X4, on the policy question with the evaluator down. *)
Lemma evaluator_failure_is_soft_witness :
  groudedness ungraded (JStr "Policy X requires ...") (JStr "Policy X states ...")
  = Raise unavailable /\
  exists r,
    get_answer ungraded question = Ok r /\
    r !! "answer" = Some (JStr "Policy X requires ...") /\
    r !! "gpt_groudedness" = None /\
    r !! "sources" = Some (JStr "Policy X states ...") /\
    r !! "search_query" = Some (JStr "What is policy X?").
Proof.
  split; [evaluate|].
  apply (evaluator_failure_is_soft ungraded question
           (function_result_message (JStr "get_sources") "Policy X states ...")
           unavailable); try evaluate.
  right. exists (JStr "Policy X states ..."). split; evaluate.
Defined.

(** X5.  Whenever the evaluator is called, the RAG round has raised
    nothing; it is given the answer of the round and the content of the
    second-to-last message, which is a function result named
    [get_sources]; and when the retrieval was invoked in the turn, that
    content is the text the retrieval returned. *)
Theorem evaluator_inputs (env : Env) (h : list json) (a src : json)
    (out : result string) :
  Grounded a src out ∈ calls_of env h ->
  rag_processing_error (after_rag env h) = false /\
  a = answer (after_rag env h) /\
  out = groudedness env a src /\
  (exists m,
      Py.from_end (messages (after_rag env h)) 2 = Ok m /\
      Py.getitem m "role" = Ok (JStr "function") /\
      Py.getitem m "name" = Ok (JStr "get_sources") /\
      Py.getitem m "content" = Ok src) /\
  (forall name args o,
      Invoke name args o ∈ calls_of env h ->
      exists text, o = Ok text /\ src = JStr text).
Proof.
  unfold calls_of. rewrite turn_finish.
  destruct (rag_calls env h) as (out1 & Hcalls).
  destruct (finish_calls env (after_rag env h)) as (_ & [Hsame|Hmore]).
  { rewrite Hsame. intros Hin. exfalso.
    destruct Hcalls as [Hc|[(args & o & _ & Hc)|(args & text & ms & out2 & Hc)]];
      rewrite Hc in Hin; revert Hin;
      rewrite ?elem_of_cons, ?elem_of_nil; intuition congruence. }
  destruct Hmore as (m & src' & Hm & Hdue & Hsrc & Hmore).
  rewrite Hmore. rewrite elem_of_app, list_elem_of_singleton.
  intros [Hin|Heq].
  { exfalso.
    destruct Hcalls as [Hc|[(args & o & _ & Hc)|(args & text & ms & out2 & Hc)]];
      rewrite Hc in Hin; revert Hin;
      rewrite ?elem_of_cons, ?elem_of_nil; intuition congruence. }
  injection Heq as -> -> ->.
  apply grading_due_true_inv in Hdue as (Hrole & Hname & Hok).
  repeat split; try assumption; try reflexivity.
  { exists m. repeat split; assumption. }
  intros name args o. rewrite elem_of_app, list_elem_of_singleton.
  intros [Hin|Heq]; [|discriminate].
  destruct (rag_completed env h name args o Hok Hin)
    as (role & raw & text & reply & -> & Hms).
  exists text. split; [reflexivity|].
  rewrite Hms, from_end_middle in Hm. injection Hm as <-.
  rewrite getitem_result_content in Hsrc. congruence.
Qed.

(** X5, on the policy question. *)
Lemma evaluator_inputs_witness :
  Grounded (JStr "Policy X requires ...") (JStr "Policy X states ...") (Ok "4")
  ∈ calls_of (policy "4") question /\
  rag_processing_error (after_rag (policy "4") question) = false /\
  JStr "Policy X requires ..." = answer (after_rag (policy "4") question).
Proof.
  assert (Hin : Grounded (JStr "Policy X requires ...")
                  (JStr "Policy X states ...") (Ok "4")
                ∈ calls_of (policy "4") question).
  { vm_compute. apply list_elem_of_In. simpl. auto. }
  split; [exact Hin|].
  destruct (evaluator_inputs (policy "4") question _ _ _ Hin) as (Hf & Ha & _).
  split; assumption.
Defined.

(** ** The score and the metadata *)

(** X6.  A score in the returned dictionary is always the value that
    [int] gave for a text which the evaluator returned in this turn and
    which [isdigit] accepted. *)
Theorem recorded_score_comes_from_evaluator (env : Env) (h : list json)
    (r : gmap string json) (v : json) :
  get_answer env h = Ok r ->
  r !! "gpt_groudedness" = Some v ->
  exists n a src text,
    v = JInt n /\
    Grounded a src (Ok text) ∈ calls_of env h /\
    str_isdigit env text = true /\
    int_of_str env text = Ok n.
Proof.
  intros Hr Hv.
  destruct (get_answer_finish env h r Hr) as (s2 & Hfin & Hcalls).
  destruct (finish_entries env _ _ _ Hfin)
    as (_ & [Hsame|(src & text & n & Hin & Hd & Hn & Hgpt)]).
  { rewrite Hsame, rag_other_entries in Hv by congruence. discriminate. }
  rewrite Hgpt in Hv. injection Hv as <-.
  exists n, (answer (after_rag env h)), src, text.
  rewrite Hcalls. repeat split; assumption.
Qed.

(** X6, on the policy question with the grade 4. *)
Lemma recorded_score_comes_from_evaluator_witness :
  get_answer (policy "4") question = Ok (returned (policy "4") question) /\
  returned (policy "4") question !! "gpt_groudedness" = Some (JInt 4) /\
  exists n a src text,
    JInt 4 = JInt n /\
    Grounded a src (Ok text) ∈ calls_of (policy "4") question /\
    str_isdigit (policy "4") text = true /\
    int_of_str (policy "4") text = Ok n.
Proof.
  split; [evaluate|]. split; [evaluate|].
  apply (recorded_score_comes_from_evaluator (policy "4") question
           (returned (policy "4") question) (JInt 4)); evaluate.
Defined.

(** X7.  In a returned dictionary [search_query] is present exactly when
    [sources] is; and then [sources] is the text that the retrieval
    returned in this turn and [search_query] is the ['question'] of the
    arguments it was invoked with. *)
Theorem metadata_comes_from_retrieval (env : Env) (h : list json)
    (r : gmap string json) :
  get_answer env h = Ok r ->
  (is_Some (r !! "search_query") <-> is_Some (r !! "sources")) /\
  (forall v,
      r !! "sources" = Some v ->
      exists args text q,
        Invoke (JStr "get_sources") args (Ok text) ∈ calls_of env h /\
        v = JStr text /\
        Py.getitem args "question" = Ok q /\
        r !! "search_query" = Some q).
Proof.
  intros Hr.
  destruct (get_answer_finish env h r Hr) as (s2 & Hfin & Hcalls).
  destruct (finish_frame env _ _ _ Hfin) as (Hs & Hq & _ & _ & _ & _ & _ & Hinv & _).
  rewrite Hs, Hq. split; [apply rag_query_iff_sources|].
  intros v Hv.
  destruct (proj1 (rag_sources_iff env h)) as [(args & out & Hin) Hok].
  { rewrite Hv. eauto. }
  destruct (rag_metadata env h _ _ _ Hok Hin) as (text & q & -> & Hquestion & Hsrc & Hsq).
  exists args, text, q. rewrite Hcalls. repeat split.
  - apply Hinv. exact Hin.
  - congruence.
  - exact Hquestion.
  - exact Hsq.
Qed.

(** X7, on the policy question. *)
Lemma metadata_comes_from_retrieval_witness :
  get_answer (policy "4") question = Ok (returned (policy "4") question) /\
  returned (policy "4") question !! "sources" = Some (JStr "Policy X states ...") /\
  returned (policy "4") question !! "search_query" = Some (JStr "What is policy X?") /\
  (is_Some (returned (policy "4") question !! "search_query") <->
   is_Some (returned (policy "4") question !! "sources")).
Proof.
  split; [evaluate|]. split; [evaluate|]. split; [evaluate|].
  apply (metadata_comes_from_retrieval (policy "4") question
           (returned (policy "4") question)); evaluate.
Defined.

(** X12.  A returned dictionary has no entry but [prompt], [answer],
    [prompt_tokens], [completion_tokens], [search_query], [sources] and
    [gpt_groudedness]; and [prompt] is the text of the prompt file. *)
Theorem result_entries (env : Env) (h : list json) (r : gmap string json) :
  get_answer env h = Ok r ->
  (forall k, is_Some (r !! k) ->
             k ∈ ["prompt"; "answer"; "prompt_tokens"; "completion_tokens";
                  "search_query"; "sources"; "gpt_groudedness"]) /\
  r !! "prompt" = Some (JStr (prompt_file env)).
Proof.
  intros Hr.
  destruct (get_answer_finish env h r Hr) as (s2 & Hfin & _).
  destruct (finish_entries env _ _ _ Hfin) as (Hother & _).
  destruct (finish_frame env _ _ _ Hfin) as (_ & _ & _ & Hp & _).
  split; [|exact Hp].
  intros k Hk. rewrite !elem_of_cons.
  destruct (decide (k = "prompt")); [tauto|].
  destruct (decide (k = "answer")); [tauto|].
  destruct (decide (k = "prompt_tokens")); [tauto|].
  destruct (decide (k = "completion_tokens")); [tauto|].
  destruct (decide (k = "search_query")); [tauto|].
  destruct (decide (k = "sources")); [tauto|].
  destruct (decide (k = "gpt_groudedness")); [tauto|].
  exfalso. rewrite Hother, rag_other_entries in Hk by assumption.
  destruct Hk as [x Hx]. discriminate.
Qed.

(** X12, on the policy question. *)
Lemma result_entries_witness :
  get_answer (policy "4") question = Ok (returned (policy "4") question) /\
  returned (policy "4") question !! "prompt"
  = Some (JStr "You answer questions about policies.") /\
  returned (policy "4") question !! "error" = None.
Proof.
  split; [evaluate|].
  destruct (result_entries (policy "4") question (returned (policy "4") question))
    as (Hkeys & Hprompt); [evaluate|].
  split; [exact Hprompt|].
  destruct (returned (policy "4") question !! "error") as [x|] eqn:E; [|reflexivity].
  exfalso. specialize (Hkeys "error" (ex_intro _ x E)).
  revert Hkeys. rewrite !elem_of_cons, elem_of_nil. intuition discriminate.
Defined.

(** X11.  The conversation sent is never altered: when the turn is over
    the list of messages is the system message and the history, followed
    by at most three messages, and by at least one when the RAG round
    raised nothing. *)
Theorem conversation_only_grows (env : Env) (h : list json) :
  exists extra,
    messages (snd (turn env h))
    = system_message env :: get_chat_history_as_messages env h ++ extra /\
    (length extra <= 3)%nat /\
    (rag_processing_error (after_rag env h) = false -> extra <> []).
Proof.
  rewrite turn_finish.
  destruct (finish_calls env (after_rag env h)) as (-> & _).
  destruct (rag_messages env h) as (extra & Hms & Hlen & Hne).
  exists extra. rewrite Hms. repeat split; assumption.
Qed.

(** ** The ways a RAG round ends *)

(** X13.  When the first completion raises [e] and the condition of line
    187 can be evaluated, the only call of the turn is that completion, the
    returned answer is the error answer of [e], both token counters are 0
    and there is no retrieval metadata and no score. *)
Theorem failed_first_completion (env : Env) (h : list json) (e : exn)
    (prev : json) (b : bool) :
  chat_complete env (messages (initial env h)) (functions_definitions env) "auto"
  = Raise e ->
  Py.from_end (messages (initial env h)) 2 = Ok prev ->
  grading_due prev true = Ok b ->
  exists r,
    get_answer env h = Ok r /\
    r !! "answer" = Some (JStr (error_answer env e)) /\
    r !! "prompt_tokens" = Some (JInt 0) /\
    r !! "completion_tokens" = Some (JInt 0) /\
    r !! "sources" = None /\
    r !! "search_query" = None /\
    r !! "gpt_groudedness" = None /\
    calls_of env h
    = [ChatComplete (messages (initial env h)) "auto" (Raise e)].
Proof.
  intros Hc Hprev Hb. apply grading_due_failed in Hb as Hf. subst b.
  cbv [initial messages] in Hc, Hprev.
  unfold_flow. rewrite Hc. cbv beta iota. rewrite Hprev, Hb. cbv beta iota.
  eexists. repeat match goal with |- _ /\ _ => split end; reflexivity.
Qed.

(** X13, on the outage after one question. *)
Lemma failed_first_completion_witness :
  chat_complete outage (messages (initial outage question))
    (functions_definitions outage) "auto" = Raise unavailable /\
  exists r,
    get_answer outage question = Ok r /\
    r !! "answer" = Some (JStr (error_answer outage unavailable)) /\
    r !! "prompt_tokens" = Some (JInt 0) /\
    r !! "completion_tokens" = Some (JInt 0) /\
    r !! "sources" = None /\
    r !! "search_query" = None /\
    r !! "gpt_groudedness" = None /\
    calls_of outage question
    = [ChatComplete (messages (initial outage question)) "auto" (Raise unavailable)].
Proof.
  split; [evaluate|].
  apply (failed_first_completion outage question unavailable
           (system_message outage) false); evaluate.
Defined.

(** X8.  Arguments that cannot be parsed end the turn before anything is
    looked up or invoked: when [json.loads] raises [e] on the arguments of
    the directive, the returned answer is the error answer of [e], the
    first completion is the only call, its usage is counted, and there is
    no retrieval metadata and no score. *)
Theorem malformed_arguments_result (env : Env) (h : list json)
    (response m name raw prev : json) (p c : Z) (e : exn) (b : bool) :
  chat_complete env (messages (initial env h)) (functions_definitions env) "auto"
  = Ok response ->
  first_message response = Ok m ->
  usage_counts response p c ->
  directive m name raw ->
  loads env raw = Raise e ->
  Py.from_end (messages (initial env h)) 2 = Ok prev ->
  grading_due prev true = Ok b ->
  exists r,
    get_answer env h = Ok r /\
    r !! "answer" = Some (JStr (error_answer env e)) /\
    r !! "prompt_tokens" = Some (JInt p) /\
    r !! "completion_tokens" = Some (JInt c) /\
    r !! "sources" = None /\
    r !! "search_query" = None /\
    r !! "gpt_groudedness" = None /\
    calls_of env h
    = [ChatComplete (messages (initial env h)) "auto" (Ok response)].
Proof.
  intros Hc Hm (pv & cv & Hpv & Hp & Hcv & Hcc) (fc & Hfc & Hname & Hraw)
    Hloads Hprev Hb.
  pose proof (getitem_is_in _ _ _ Hfc) as Hin.
  apply grading_due_failed in Hb as Hf. subst b.
  cbv [initial messages] in Hc, Hprev.
  unfold_flow.
  rewrite Hc, Hm, Hpv, Hp, Hcv, Hcc, Hin, Hfc, Hname, Hraw, Hloads.
  cbv beta iota. rewrite Hprev, Hb. cbv beta iota.
  eexists. repeat match goal with |- _ /\ _ => split end; reflexivity.
Qed.

(** X8, on a directive whose arguments are not JSON. *)
Lemma malformed_arguments_result_witness :
  loads unknown_malformed (JStr "not json")
  = Raise (Fault "Expecting value: line 1 column 1 (char 0)") /\
  exists r,
    get_answer unknown_malformed question = Ok r /\
    r !! "answer"
    = Some (JStr (error_answer unknown_malformed
                    (Fault "Expecting value: line 1 column 1 (char 0)"))) /\
    r !! "prompt_tokens" = Some (JInt 120) /\
    r !! "completion_tokens" = Some (JInt 18) /\
    r !! "sources" = None /\
    r !! "search_query" = None /\
    r !! "gpt_groudedness" = None /\
    calls_of unknown_malformed question
    = [ChatComplete (messages (initial unknown_malformed question)) "auto"
         (Ok (completion (asks "lookup_weather" "not json") 120 18))].
Proof.
  split; [evaluate|].
  apply (malformed_arguments_result unknown_malformed question
           (completion (asks "lookup_weather" "not json") 120 18)
           (asks "lookup_weather" "not json")
           (JStr "lookup_weather") (JStr "not json") (system_message unknown_malformed)
           120 18 (Fault "Expecting value: line 1 column 1 (char 0)") false);
    try evaluate.
  - exists (JInt 120), (JInt 18). repeat split; evaluate.
  - eexists. repeat split; evaluate.
Defined.

(** X9.  A retrieval that raises ends the turn: when the capability raises
    [e], no second completion is requested, the conversation is left as it
    was sent, and the returned answer is the error answer of [e], without
    retrieval metadata and score. *)
Theorem failed_retrieval_result (env : Env) (h : list json)
    (response m name raw args prev : json) (p c : Z) (e : exn) (b : bool)
    (capability : json -> result string) :
  chat_complete env (messages (initial env h)) (functions_definitions env) "auto"
  = Ok response ->
  first_message response = Ok m ->
  usage_counts response p c ->
  directive m name raw ->
  loads env raw = Ok args ->
  resolve env name = Ok capability ->
  capability args = Raise e ->
  Py.from_end (messages (initial env h)) 2 = Ok prev ->
  grading_due prev true = Ok b ->
  exists r,
    get_answer env h = Ok r /\
    r !! "answer" = Some (JStr (error_answer env e)) /\
    r !! "sources" = None /\
    r !! "search_query" = None /\
    r !! "gpt_groudedness" = None /\
    messages (after_rag env h) = messages (initial env h) /\
    calls_of env h
    = [ChatComplete (messages (initial env h)) "auto" (Ok response);
       Invoke name args (Raise e)].
Proof.
  intros Hc Hm (pv & cv & Hpv & Hp & Hcv & Hcc) (fc & Hfc & Hname & Hraw)
    Hargs Hres Hcap Hprev Hb.
  pose proof (getitem_is_in _ _ _ Hfc) as Hin.
  apply grading_due_failed in Hb as Hf. subst b.
  cbv [initial messages] in Hc, Hprev.
  unfold_flow.
  rewrite Hc, Hm, Hpv, Hp, Hcv, Hcc, Hin, Hfc, Hname, Hraw, Hargs, Hres, Hcap.
  cbv beta iota. rewrite Hprev, Hb. cbv beta iota.
  eexists. repeat match goal with |- _ /\ _ => split end; reflexivity.
Qed.

(** X9, on a retrieval that is down. *)
Lemma failed_retrieval_result_witness :
  Retrieval unreachable (JDict [("question", JStr "What is policy X?")])
  = Raise unavailable /\
  exists r,
    get_answer unreachable question = Ok r /\
    r !! "answer" = Some (JStr (error_answer unreachable unavailable)) /\
    r !! "sources" = None /\
    r !! "search_query" = None /\
    r !! "gpt_groudedness" = None /\
    messages (after_rag unreachable question) = messages (initial unreachable question) /\
    calls_of unreachable question
    = [ChatComplete (messages (initial unreachable question)) "auto"
         (Ok (completion (asks "get_sources" policy_arguments) 120 18));
       Invoke (JStr "get_sources") (JDict [("question", JStr "What is policy X?")])
         (Raise unavailable)].
Proof.
  split; [evaluate|].
  apply (failed_retrieval_result unreachable question
           (completion (asks "get_sources" policy_arguments) 120 18)
           (asks "get_sources" policy_arguments)
           (JStr "get_sources") (JStr policy_arguments)
           (JDict [("question", JStr "What is policy X?")])
           (system_message unreachable) 120 18 unavailable false
           (Retrieval unreachable));
    try evaluate.
  - exists (JInt 120), (JInt 18). repeat split; evaluate.
  - eexists. repeat split; evaluate.
Defined.

(** X16.  A turn whose first completion carries no directive never
    invokes a capability and requests no second completion, whether the
    round then succeeds or not. *)
Theorem direct_turn_calls (env : Env) (h : list json) (response m : json) :
  chat_complete env (messages (initial env h)) (functions_definitions env) "auto"
  = Ok response ->
  first_message response = Ok m ->
  Py.is_in "function_call" m = Ok false ->
  completions (calls_of env h) = [Ok response] /\
  forall name args out, Invoke name args out ∉ calls_of env h.
Proof.
  intros Hc Hm Hin.
  assert (Hrag : calls (after_rag env h)
                 = [ChatComplete (messages (initial env h)) "auto" (Ok response)]).
  { cbv [initial messages] in Hc. unfold_flow. rewrite Hc, Hm. cbv beta iota.
    explore; reflexivity. }
  unfold calls_of. rewrite turn_finish.
  destruct (finish_calls env (after_rag env h))
    as (_ & [->|(m' & src & _ & _ & _ & ->)]); rewrite Hrag.
  - split; [reflexivity|]. intros name args out.
    rewrite list_elem_of_singleton. discriminate.
  - split; [reflexivity|]. intros name args out.
    rewrite elem_of_app, !list_elem_of_singleton. intuition discriminate.
Qed.

(** X16, on the greeting. *)
Lemma direct_turn_calls_witness :
  Py.is_in "function_call" (says "Hello!") = Ok false /\
  completions (calls_of greeting [user "Hi there"])
  = [Ok (completion (says "Hello!") 50 3)] /\
  forall name args out, Invoke name args out ∉ calls_of greeting [user "Hi there"].
Proof.
  split; [evaluate|].
  apply (direct_turn_calls greeting [user "Hi there"]
           (completion (says "Hello!") 50 3) (says "Hello!")); evaluate.
Defined.

(** X10.  A function round that goes through: when the directive asks for
    [get_sources] with arguments that carry a ['question'], the retrieval
    returns [text] and the second completion replies with [content2],
    [get_answer] returns; [sources] is [text], [search_query] is the
    question, the counters add the usage of both completions, the evaluator
    is called once, on [content2] and [text], after the two completions
    around the retrieval; and the answer is [content2] unless a score below
    3 was recorded, in which case it is the text of [UNGROUNDED_ANSWER]. *)
Theorem completed_function_round (env : Env) (h : list json)
    (response m raw args role q response2 m2 role2 content2 : json)
    (p c p2 c2 : Z) (text : string) :
  chat_complete env (messages (initial env h)) (functions_definitions env) "auto"
  = Ok response ->
  first_message response = Ok m ->
  usage_counts response p c ->
  directive m (JStr "get_sources") raw ->
  Py.getitem m "role" = Ok role ->
  loads env raw = Ok args ->
  Py.getitem args "question" = Ok q ->
  Retrieval env args = Ok text ->
  chat_complete env
    (messages (initial env h)
     ++ [function_call_message role (JStr "get_sources") raw;
         function_result_message (JStr "get_sources") text])
    (functions_definitions env) "none" = Ok response2 ->
  first_message response2 = Ok m2 ->
  usage_counts response2 p2 c2 ->
  Py.getitem m2 "role" = Ok role2 ->
  Py.getitem m2 "content" = Ok content2 ->
  exists r,
    get_answer env h = Ok r /\
    r !! "sources" = Some (JStr text) /\
    r !! "search_query" = Some q /\
    r !! "prompt_tokens" = Some (JInt (p + p2)) /\
    r !! "completion_tokens" = Some (JInt (c + c2)) /\
    calls_of env h
    = [ChatComplete (messages (initial env h)) "auto" (Ok response);
       Invoke (JStr "get_sources") args (Ok text);
       ChatComplete
         (messages (initial env h)
          ++ [function_call_message role (JStr "get_sources") raw;
              function_result_message (JStr "get_sources") text])
         "none" (Ok response2);
       Grounded content2 (JStr text) (groudedness env content2 (JStr text))] /\
    ((r !! "answer" = Some content2 /\
      (r !! "gpt_groudedness" = None \/
       exists n, r !! "gpt_groudedness" = Some (JInt n) /\ 3 <= n)) \/
     (r !! "answer" = Some (JStr (get_message env "UNGROUNDED_ANSWER")) /\
      exists n, r !! "gpt_groudedness" = Some (JInt n) /\ n < 3)).
Proof.
  intros Hc Hm (pv & cv & Hpv & Hp & Hcv & Hcc) (fc & Hfc & Hname & Hraw)
    Hrole Hargs Hq Hcap Hc2 Hm2 (pv2 & cv2 & Hpv2 & Hp2 & Hcv2 & Hcc2) Hrole2 Hcontent2.
  pose proof (getitem_is_in _ _ _ Hfc) as Hin.
  apply (add_from p) in Hp2. apply (add_from c) in Hcc2.
  cbv [initial messages] in Hc, Hc2.
  unfold_flow.
  rewrite Hc, Hm, Hpv, Hp, Hcv, Hcc, Hin, Hfc, Hname, Hraw, Hargs,
    resolve_get_sources, Hcap, Hrole.
  cbv beta iota.
  rewrite Hc2, Hm2, Hpv2, Hp2, Hcv2, Hcc2, Hrole2, Hcontent2.
  cbv beta iota.
  change (Py.eq_str (JStr "get_sources") "get_sources") with true.
  cbv beta iota. rewrite Hq. cbv beta iota.
  rewrite from_end_last, getitem_reply_content. cbv beta iota.
  rewrite from_end_before_last, from_end_last_two. cbv beta iota.
  rewrite grading_due_after_retrieval, getitem_result_content.
  cbv beta iota delta [negb].
  destruct (groudedness env content2 (JStr text)) as [t|e]; cbv beta iota.
  - destruct (str_isdigit env t); cbv beta iota.
    + destruct (int_of_str env t) as [n|e]; cbv beta iota.
      * destruct (n <? 3)%Z eqn:Hn; cbv beta iota.
        -- eexists. repeat match goal with |- _ /\ _ => split end;
             try reflexivity.
           right. split; [reflexivity|]. exists n. split; [reflexivity|].
           apply Z.ltb_lt. exact Hn.
        -- eexists. repeat match goal with |- _ /\ _ => split end;
             try reflexivity.
           left. split; [reflexivity|]. right. exists n. split; [reflexivity|].
           apply Z.ltb_ge. exact Hn.
      * eexists. repeat match goal with |- _ /\ _ => split end; try reflexivity.
        left. split; [reflexivity|]. left. reflexivity.
    + eexists. repeat match goal with |- _ /\ _ => split end; try reflexivity.
      left. split; [reflexivity|]. left. reflexivity.
  - eexists. repeat match goal with |- _ /\ _ => split end; try reflexivity.
    left. split; [reflexivity|]. left. reflexivity.
Qed.

(** X10, on the policy question with the grade 4. *)
Lemma completed_function_round_witness :
  Py.getitem (JDict [("question", JStr "What is policy X?")]) "question"
  = Ok (JStr "What is policy X?") /\
  exists r,
    get_answer (policy "4") question = Ok r /\
    r !! "sources" = Some (JStr "Policy X states ...") /\
    r !! "search_query" = Some (JStr "What is policy X?") /\
    r !! "prompt_tokens" = Some (JInt 380) /\
    r !! "completion_tokens" = Some (JInt 58) /\
    r !! "answer" = Some (JStr "Policy X requires ...") /\
    r !! "gpt_groudedness" = Some (JInt 4).
Proof.
  split; [evaluate|].
  destruct (completed_function_round (policy "4") question
              (completion (asks "get_sources" policy_arguments) 120 18)
              (asks "get_sources" policy_arguments) (JStr policy_arguments)
              (JDict [("question", JStr "What is policy X?")]) (JStr "assistant")
              (JStr "What is policy X?")
              (completion (says "Policy X requires ...") 260 40)
              (says "Policy X requires ...") (JStr "assistant")
              (JStr "Policy X requires ...") 120 18 260 40 "Policy X states ...")
    as (r & Hr & Hs & Hq & Hp & Hc & _ & _); try evaluate.
  { exists (JInt 120), (JInt 18). repeat split; evaluate. }
  { eexists. repeat split; evaluate. }
  { exists (JInt 260), (JInt 40). repeat split; evaluate. }
  exists r. split; [exact Hr|].
  repeat match goal with |- _ /\ _ => split end; try assumption.
  - assert (Hret : returned (policy "4") question = r).
    { unfold returned. rewrite Hr. reflexivity. }
    rewrite <- Hret. evaluate.
  - assert (Hret : returned (policy "4") question = r).
    { unfold returned. rewrite Hr. reflexivity. }
    rewrite <- Hret. evaluate.
Defined.

(** X17.  A response from which the message cannot be read, such as an
    error body without [choices], is not asked for again: the turn ends
    with the error answer of that read, the first completion as its only
    call, and both counters at 0, the usage being read after the message. *)
Theorem unreadable_response_result (env : Env) (h : list json)
    (response prev : json) (e : exn) (b : bool) :
  chat_complete env (messages (initial env h)) (functions_definitions env) "auto"
  = Ok response ->
  first_message response = Raise e ->
  Py.from_end (messages (initial env h)) 2 = Ok prev ->
  grading_due prev true = Ok b ->
  exists r,
    get_answer env h = Ok r /\
    r !! "answer" = Some (JStr (error_answer env e)) /\
    r !! "prompt_tokens" = Some (JInt 0) /\
    r !! "completion_tokens" = Some (JInt 0) /\
    r !! "sources" = None /\
    r !! "gpt_groudedness" = None /\
    calls_of env h
    = [ChatComplete (messages (initial env h)) "auto" (Ok response)].
Proof.
  intros Hc Hm Hprev Hb. apply grading_due_failed in Hb as Hf. subst b.
  cbv [initial messages] in Hc, Hprev.
  unfold_flow. rewrite Hc, Hm. cbv beta iota. rewrite Hprev, Hb. cbv beta iota.
  eexists. repeat match goal with |- _ /\ _ => split end; reflexivity.
Qed.

(** X17, on an error body. *)
Lemma unreadable_response_result_witness :
  first_message (JDict [("error", JDict [("code", JStr "429")])])
  = Raise (KeyError (JStr "choices")) /\
  exists r,
    get_answer throttled question = Ok r /\
    r !! "answer" = Some (JStr "<ERROR_ANSWER> RAG flow: 'choices'") /\
    r !! "prompt_tokens" = Some (JInt 0) /\
    r !! "completion_tokens" = Some (JInt 0) /\
    r !! "sources" = None /\
    r !! "gpt_groudedness" = None /\
    calls_of throttled question
    = [ChatComplete (messages (initial throttled question)) "auto"
         (Ok (JDict [("error", JDict [("code", JStr "429")])]))].
Proof.
  split; [evaluate|].
  apply (unreadable_response_result throttled question
           (JDict [("error", JDict [("code", JStr "429")])])
           (system_message throttled) (KeyError (JStr "choices")) false); evaluate.
Defined.

(** ** The retry decorator *)

Lemma retry_from_outcome {A : Type} (attempt : nat -> result A) (more k : nat) :
  (k <= snd (retry_from more k attempt) <= k + more)%nat /\
  attempt (snd (retry_from more k attempt)) = fst (retry_from more k attempt) /\
  (forall j, (k <= j < snd (retry_from more k attempt))%nat ->
             exists e, attempt j = Raise e) /\
  (forall e, fst (retry_from more k attempt) = Raise e ->
             snd (retry_from more k attempt) = (k + more)%nat).
Proof.
  revert k. induction more as [|more IH]; intros k; simpl.
  - destruct (attempt k) as [a|e] eqn:Ha; simpl.
    all: repeat match goal with |- _ /\ _ => split end;
      try lia; try assumption; try discriminate; intros; lia.
  - destruct (attempt k) as [a|e] eqn:Ha; simpl.
    + repeat match goal with |- _ /\ _ => split end;
        try lia; try assumption; try discriminate; intros; lia.
    + destruct (IH (S k)) as (Hn & Hout & Hfail & Hlast).
      repeat match goal with |- _ /\ _ => split end; try lia; try assumption.
      * intros j Hj. destruct (decide (j = k)) as [->|Hne]; [eauto|].
        apply Hfail. lia.
      * intros e' He'. rewrite (Hlast e' He'). lia.
Qed.

(** X14.  The decorated call makes between one and twelve attempts; its
    outcome is that of the last attempt made; every attempt before the
    last raised; and it raises only when the twelfth attempt did, with
    that attempt's exception. *)
Theorem retry_outcome {A : Type} (attempt : nat -> result A) :
  (1 <= snd (retry attempt) <= 12)%nat /\
  attempt (snd (retry attempt)) = fst (retry attempt) /\
  (forall j, (1 <= j < snd (retry attempt))%nat -> exists e, attempt j = Raise e) /\
  (forall e, fst (retry attempt) = Raise e ->
             snd (retry attempt) = 12%nat /\ attempt 12%nat = Raise e).
Proof.
  unfold retry. change (stop_after_attempt - 1)%nat with 11%nat.
  destruct (retry_from_outcome attempt 11 1) as (Hn & Hout & Hfail & Hlast).
  repeat match goal with |- _ /\ _ => split end; try lia; try assumption.
  intros e He. pose proof (Hlast e He) as Hn12.
  change (1 + 11)%nat with 12%nat in Hn12. split; [exact Hn12|].
  rewrite Hn12 in Hout. congruence.
Qed.

(** X15.  The first attempt that returns, among the first twelve, ends
    the retries: its value is returned and no further attempt is made. *)
Theorem retry_first_success {A : Type} (attempt : nat -> result A) (k : nat) (a : A) :
  (1 <= k <= 12)%nat ->
  attempt k = Ok a ->
  (forall j, (1 <= j < k)%nat -> exists e, attempt j = Raise e) ->
  retry attempt = (Ok a, k).
Proof.
  intros Hk Ha Hbefore.
  destruct (retry_outcome attempt) as (Hn & Hout & Hfail & Hlast).
  destruct (retry attempt) as [out n] eqn:Hr. simpl in *.
  assert (n = k).
  { destruct (Nat.lt_trichotomy n k) as [Hlt|[Heq|Hgt]]; [|exact Heq|].
    - destruct (Hbefore n) as [e He]; [lia|].
      rewrite He in Hout. subst out.
      destruct (Hlast e eq_refl) as [Hn12 _]. lia.
    - destruct (Hfail k) as [e He]; [lia|]. congruence. }
  subst n. congruence.
Qed.

(** X15, on an evaluator that fails twice. *)
Lemma retry_first_success_witness :
  flaky 3 = Ok "4" /\ retry flaky = (Ok "4", 3%nat).
Proof.
  split; [reflexivity|].
  apply (retry_first_success flaky 3 "4"); [lia|reflexivity|].
  intros j Hj. exists unavailable. unfold flaky.
  destruct (j <? 3)%nat eqn:E; [reflexivity|]. apply Nat.ltb_ge in E. lia.
Defined.
